(** * xlview fixture generators: contrast selection, font sweep, manifest

    A shallow embedding of the logic of the scripts
    [scripts/generate_kitchen_sink_v2.py], [scripts/generate_kitchen_sink_v3.py]
    and [scripts/generate_test_xlsx.py]:

    - the luminance test and the whole-workbook font sweep at the end of
      [create_kitchen_sink] (generate_kitchen_sink_v2.py, lines 586-627);
    - the contrasting-text expression of [create_colors_only]
      (generate_test_xlsx.py, lines 384-385);
    - [OUTPUT_DIR], the [create_*] savers, [update_manifest] and [main]
      (generate_test_xlsx.py), over a small model of the file system.

    Python floats are IEEE binary64 and are modelled by Rocq's primitive
    floats, Python ints by [Z], Python strings by [string] read as sequences
    of code points below 256, and raised exceptions by the left summand of
    [result]. What the scripts print is not modelled, nor is the state a
    script leaves behind when it terminates on an uncaught exception. *)

From Stdlib Require Import ZArith List String Ascii Bool Lia.
From Stdlib Require Import Uint63 PrimFloat FloatOps SpecFloat DecimalString.
From Stdlib Require DecimalPos DecimalZ.
From stdpp Require Import base option list sorting gmap strings.

#[local] Set Warnings "-inexact-float,-register-all".
Local Open Scope string_scope.
Local Open Scope Z_scope.

(** ** Exceptions *)

Module Py.

Inductive exn : Set :=
| ValueError
| IndexError
| AttributeError
| FileNotFoundError
| FileExistsError
| NotADirectoryError
| IsADirectoryError
| TypeError.

Definition exn_eqb (a b : exn) : bool :=
  match a, b with
  | ValueError, ValueError | IndexError, IndexError
  | AttributeError, AttributeError
  | FileNotFoundError, FileNotFoundError
  | FileExistsError, FileExistsError
  | NotADirectoryError, NotADirectoryError
  | IsADirectoryError, IsADirectoryError
  | TypeError, TypeError => true
  | _, _ => false
  end.

(** A computation that either raises ([inl e]) or returns ([inr x]). *)
Definition result (A : Type) : Type := (exn + A)%type.

Definition ret {A} (x : A) : result A := inr x.
Definition raise {A} (e : exn) : result A := inl e.

Definition bind {A B} (c : result A) (k : A -> result B) : result B :=
  match c with
  | inl e => inl e
  | inr x => k x
  end.

(** [try: body  except (e1, ..., en): pass], for a body whose only effect
    is to assign one local variable that holds [dflt] before the [try]. *)
Definition try_except_pass {A} (handled : list exn) (dflt : A)
    (body : result A) : result A :=
  match body with
  | inl e => if existsb (exn_eqb e) handled then inr dflt else inl e
  | inr x => inr x
  end.

Fixpoint mapM {A B} (f : A -> result B) (l : list A) : result (list B) :=
  match l with
  | [] => ret []
  | x :: l' => bind (f x) (fun y => bind (mapM f l') (fun ys => ret (y :: ys)))
  end.

End Py.

Import Py.

Notation "'let*' x ':=' c 'in' k" := (bind c (fun x => k))
  (at level 10, x name, c at level 100, k at level 200).

(** ** Python string and number primitives *)

(** [s[i:j]] for [0 <= i <= j]: slices never raise, they truncate. *)
Definition slice (i j : nat) (s : string) : string :=
  String.substring i (j - i) s.

(** [s[-6:]] *)
Definition last6 (s : string) : string :=
  String.substring (String.length s - 6) 6 s.

Definition code (c : ascii) : Z := Z.of_N (N_of_ascii c).

(** White space skipped by [int(s, 16)] around the number: TAB, LF, VT, FF,
    CR, SPACE and, among the code points 128..255, NEL and NBSP. *)
Definition is_space (c : ascii) : bool :=
  let n := code c in
  ((9 <=? n) && (n <=? 13)) || (n =? 32) || (n =? 133) || (n =? 160).

(** Value of a base-16 digit. *)
Definition hex_value (c : ascii) : option Z :=
  let n := code c in
  if (48 <=? n) && (n <=? 57) then Some (n - 48)
  else if (65 <=? n) && (n <=? 70) then Some (n - 55)
  else if (97 <=? n) && (n <=? 102) then Some (n - 87)
  else None.

Definition is_hex (c : ascii) : bool :=
  match hex_value c with Some _ => true | None => false end.

Fixpoint skip_space (s : string) : string :=
  match s with
  | String c s' => if is_space c then skip_space s' else s
  | EmptyString => s
  end.

(** The digit scan of [int]: digits, single underscores between digits,
    then optional trailing white space up to the end of the string.
    [acc] is the value so far, [prev_us] tells whether the previous
    character was an underscore, [seen] whether a digit was read. *)
Fixpoint scan_digits (acc : Z) (prev_us seen : bool) (s : string)
    : option Z :=
  match s with
  | EmptyString => if seen && negb prev_us then Some acc else None
  | String c s' =>
      match hex_value c with
      | Some d => scan_digits (16 * acc + d) false true s'
      | None =>
          if Ascii.eqb c "_" then
            if prev_us || negb seen then None
            else scan_digits acc true seen s'
          else if seen && negb prev_us then
            match skip_space s with
            | EmptyString => Some acc
            | _ => None
            end
          else None
      end
  end.

(** After the sign: an optional [0x] / [0X] prefix, which may be followed
    by one underscore. *)
Definition strip_prefix (s : string) : string :=
  match s with
  | String "0" (String x s') =>
      if Ascii.eqb x "x" || Ascii.eqb x "X" then
        match s' with
        | String "_" s'' => s''
        | _ => s'
        end
      else s
  | _ => s
  end.

(** [int(s, 16)]: raises [ValueError] on anything that is not an optionally
    signed base-16 literal surrounded by white space. *)
Definition int16 (s : string) : result Z :=
  let s1 := skip_space s in
  let '(neg, s2) :=
    match s1 with
    | String "+" t => (false, t)
    | String "-" t => (true, t)
    | _ => (false, s1)
    end in
  match scan_digits 0 false false (strip_prefix s2) with
  | Some v => ret (if neg then - v else v)
  | None => raise ValueError
  end.

(** [float(n)] for a Python int of magnitude below 2^53, where the
    conversion is exact: the channel values and the sizes of files.  (Past
    2^63 this definition wraps around and is not Python's.) *)
Definition float_of_int (n : Z) : float :=
  if n <? 0 then PrimFloat.opp (PrimFloat.of_uint63 (Uint63.of_Z (- n)))
  else PrimFloat.of_uint63 (Uint63.of_Z n).

(** ** The luminance test *)

(** [0.299 * r + 0.587 * g + 0.114 * b] in binary64, evaluated left to
    right. *)
Definition luminance (r g b : Z) : float :=
  (0.299 * float_of_int r + 0.587 * float_of_int g
   + 0.114 * float_of_int b)%float.

(** The same sum as [create_colors_only] writes it, with the channel on the
    left of each product. *)
Definition luminance_co (r g b : Z) : float :=
  (float_of_int r * 0.299 + float_of_int g * 0.587
   + float_of_int b * 0.114)%float.

(** ** Style objects, as the sweep reads and writes them *)

Module Xl.

(** A colour object.  [mkColor s] is a colour whose [rgb] attribute reads
    the string [s], or reads [None]; [NoRgbColor] is a colour given by a
    theme or a palette index, whose [rgb] attribute reads an object that is
    neither [None] nor a string: it is truthy, has no [len], and is equal
    to no string. *)
Inductive Color : Set :=
| mkColor (rgb : option string)
| NoRgbColor.

(** A fill either has an [fgColor] attribute (which may be unset) or, like
    a gradient fill, has none. *)
Inductive Fill : Set :=
| PatternFill (fgColor : option Color)
| GradientFill.

(** A font object: the six attributes the sweep copies, the colour, and
    the attributes the sweep does not name, which the constructor sets to
    [None] when they are not given (generate_kitchen_sink_v3.py, lines
    591-592, gives [vertAlign]). *)
Record Font : Set := mkFont {
  name : option string;
  size : option Z;
  bold : option bool;
  italic : option bool;
  underline : option string;
  strike : option bool;
  color : option Color;
  vertAlign : option string;
  charset : option Z;
  outline : option bool;
  shadow : option bool;
  condense : option bool;
  extend : option bool;
  family : option Z;
  scheme : option string
}.

(** The colour a font or a fill holds when it is built from the string
    [s]: a string of six characters is stored with ["00"] put before it. *)
Definition color_of_string (s : string) : Color :=
  mkColor (Some (if (String.length s =? 6)%nat then "00" ++ s else s)).

Inductive Value : Set :=
| VStr (s : string)
| VInt (n : Z)
| VFloat (x : float)
| VBool (b : bool).

Record Cell : Set := mkCell {
  value : option Value;
  fill : option Fill;
  font : option Font
}.

Record Worksheet : Set := mkWorksheet {
  title : string;
  iter_rows : list (list Cell)
}.

Definition Workbook : Set := list Worksheet.

End Xl.

(** ** The contrast test of the sweep (generate_kitchen_sink_v2.py) *)

Definition white_bg_cells : list (option string) :=
  [Some "#FFFFFF"; Some "#ffffff"; Some "FFFFFF"; Some "ffffff"; None].

Definition opt_string_eqb (a b : option string) : bool :=
  match a, b with
  | Some x, Some y => String.eqb x y
  | None, None => true
  | _, _ => false
  end.

(** [x in xs] for strings and [None]. *)
Definition py_in (x : option string) (xs : list (option string)) : bool :=
  existsb (opt_string_eqb x) xs.

(** Truth value of [fg.rgb]: [None] and the empty string are false. *)
Definition truthy (x : option string) : bool :=
  match x with
  | Some (String _ _) => true
  | _ => false
  end.

Section Contrast.

(** The weighted sum, abstracted so that the precedence of the override
    set can be stated for any formula; the script's is [luminance]. *)
Variable formula : Z -> Z -> Z -> float.

(** Lines 602-607: the body of the inner [try]. *)
Definition channels_dark (rgb : string) : result bool :=
  let* r := int16 (slice 0 2 rgb) in
  let* g := int16 (slice 2 4 rgb) in
  let* b := int16 (slice 4 6 rgb) in
  ret (formula r g b <? 128)%float.

(** Lines 598-609, for the value [s] of [fg.rgb]. *)
Definition rgb_dark (s : option string) : result bool :=
  if truthy s && negb (py_in s white_bg_cells) then
    match s with
    | Some str =>
        let rgb := if (6 <=? String.length str)%nat then last6 str else str in
        try_except_pass [ValueError; IndexError] false (channels_dark rgb)
    | None => ret false
    end
  else ret false.

(** Lines 594-611: the value of [has_dark_bg] after the outer [try].
    For a colour whose [rgb] is not a string, [len(fg.rgb)] of line 600
    raises [TypeError]; line 600 is outside the inner [try], and the outer
    one catches [AttributeError] only. *)
Definition has_dark_bg_with (c : Xl.Cell) : result bool :=
  try_except_pass [AttributeError] false
    match Xl.fill c with
    | Some (Xl.PatternFill (Some (Xl.mkColor rgb))) => rgb_dark rgb
    | Some (Xl.PatternFill (Some Xl.NoRgbColor)) => raise TypeError
    | _ => ret false
    end.

End Contrast.

Definition has_dark_bg : Xl.Cell -> result bool := has_dark_bg_with luminance.

(** ** The contrasting text of [create_colors_only] (lines 384-385) *)

Definition contrast_font (color : string) : result string :=
  let* r := int16 (slice 0 2 color) in
  let* g := int16 (slice 2 4 color) in
  let* b := int16 (slice 4 6 color) in
  let lum := luminance_co r g b in
  ret (if (128 <? lum)%float then "000000" else "FFFFFF").

Definition theme_colors : list (list string) :=
  [ ["FFFFFF"; "000000"; "E7E6E6"; "44546A"; "4472C4"; "ED7D31"];
    ["D0CECE"; "7F7F7F"; "AEAAAA"; "8497B0"; "8FAADC"; "F4B183"];
    ["A5A5A5"; "595959"; "757171"; "ACB9CA"; "B4C6E7"; "F8CBAD"] ].

(** ** The font sweep (generate_kitchen_sink_v2.py, lines 588-627) *)

Definition white_font_rgbs : list (option string) :=
  [Some "FFFFFFFF"; Some "00FFFFFF"; Some "FFFFFF"].

(** [font_color.rgb in (...)]: a colour whose [rgb] is not a string is
    equal to none of the strings. *)
Definition rgb_in (col : Xl.Color) (xs : list (option string)) : bool :=
  match col with
  | Xl.mkColor rgb => py_in rgb xs
  | Xl.NoRgbColor => false
  end.

(** The condition of line 617. *)
Definition needs_black (font_color : option Xl.Color) (dark : bool) : bool :=
  match font_color with
  | None => true
  | Some col => rgb_in col white_font_rgbs && negb dark
  end.

(** Lines 619-627: a new font built from six attributes of the current one
    and the colour string ["000000"]; the attributes that are not given
    take the constructor's default. *)
Definition black_font (current_font : Xl.Font) : Xl.Font :=
  {| Xl.name := Xl.name current_font;
     Xl.size := Xl.size current_font;
     Xl.bold := Xl.bold current_font;
     Xl.italic := Xl.italic current_font;
     Xl.underline := Xl.underline current_font;
     Xl.strike := Xl.strike current_font;
     Xl.color := Some (Xl.color_of_string "000000");
     Xl.vertAlign := None;
     Xl.charset := None;
     Xl.outline := None;
     Xl.shadow := None;
     Xl.condense := None;
     Xl.extend := None;
     Xl.family := None;
     Xl.scheme := None |}.

(** The body of the innermost loop, lines 592-627. *)
Definition sweep_cell (c : Xl.Cell) : result Xl.Cell :=
  match Xl.value c with
  | None => ret c
  | Some _ =>
      let* dark := has_dark_bg c in
      match Xl.font c with
      | None => ret c
      | Some current_font =>
          if needs_black (Xl.color current_font) dark
          then ret (Xl.mkCell (Xl.value c) (Xl.fill c)
                      (Some (black_font current_font)))
          else ret c
      end
  end.

Definition sweep_sheet (ws : Xl.Worksheet) : result Xl.Worksheet :=
  let* rows := mapM (mapM sweep_cell) (Xl.iter_rows ws) in
  ret (Xl.mkWorksheet (Xl.title ws) rows).

(** [for ws in wb.worksheets: for row in ws.iter_rows(): for cell in row] *)
Definition sweep (wb : Xl.Workbook) : result Xl.Workbook :=
  mapM sweep_sheet wb.

Definition cells (wb : Xl.Workbook) : list Xl.Cell :=
  concat (concat (map Xl.iter_rows wb)).

(** ** Numbers as text *)

(** [str(n)] for an int. *)
Definition str_of_int (n : Z) : string := NilZero.string_of_int (Z.to_int n).

(** Nearest integer to [n / d] for [d > 0], ties to even. *)
Definition round_half_even (n d : Z) : Z :=
  let q := n / d in
  let r := n mod d in
  if 2 * r <? d then q
  else if d <? 2 * r then q + 1
  else if Z.even q then q else q + 1.

(** [f"{x:.1f}"]: the decimal with one fractional digit nearest to the exact
    value of the binary64 [x], ties to even. *)
Definition format_1f (x : float) : string :=
  match Prim2SF x with
  | S754_finite sgn m e =>
      let tenths :=
        if 0 <=? e then 10 * Z.pos m * 2 ^ e
        else round_half_even (10 * Z.pos m) (2 ^ (- e)) in
      (if sgn then "-" else "") ++ str_of_int (tenths / 10) ++ "."
        ++ str_of_int (tenths mod 10)
  | S754_zero sgn => (if sgn then "-" else "") ++ "0.0"
  | S754_infinity sgn => if sgn then "-inf" else "inf"
  | S754_nan => "nan"
  end.

(** Lines 404-411 of [update_manifest]: the human readable size.
    [size / 1_000_000] is the binary64 quotient (exact operands below
    2^53). *)
Definition size_str (size : Z) : string :=
  if 1000000 <? size then
    format_1f (float_of_int size / 1000000)%float ++ "MB"
  else if 1000 <? size then
    format_1f (float_of_int size / 1000)%float ++ "KB"
  else str_of_int size ++ "B".

(** ** JSON values and the file system *)

Inductive json : Set :=
| JString (s : string)
| JArray (items : list json)
| JObject (members : list (string * json)).

(** The workbooks the scripts build. *)
Inductive fixture : Set :=
| KitchenSink
| LargeFile (rows cols : Z)
| ColorsOnly
| KitchenSinkV2
| KitchenSinkV3.

(** What a file holds.  [XlsxData wb] records which workbook a [wb.save]
    wrote, not the bytes of the archive: those hold the time of saving and,
    for the large file, random values, and differ from one save to the
    next.  Two nodes [File (XlsxData wb)] are files of the same origin. *)
Inductive content : Set :=
| Blob (tag : string)            (* a file the scripts never look into *)
| XlsxData (wb : fixture)        (* written by [wb.save] *)
| JsonData (doc : json).         (* written by [json.dump] *)

Inductive node : Set :=
| Dir
| File (data : content).

(** An absolute path, as its components below the root. *)
Abbreviation path := (list string).

(** [p.parent]; the root is its own parent. *)
Definition parent (p : path) : path := removelast p.

(** [p.name] *)
Definition name (p : path) : string := List.last p "".

(** [p / s] *)
Definition joinpath (p : path) (s : string) : path := (p ++ [s])%list.

Definition is_dir (fs : gmap path node) (p : path) : bool :=
  match p with
  | [] => true
  | _ => match fs !! p with Some Dir => true | _ => false end
  end.

(** What opening [p] for writing checks before it creates or truncates the
    file. *)
Definition write_file (p : path) (data : content) (fs : gmap path node)
    : result (gmap path node) :=
  if is_dir fs p then raise IsADirectoryError
  else if is_dir fs (parent p) then ret (<[p := File data]> fs)
  else match fs !! parent p with
       | Some (File _) => raise NotADirectoryError
       | _ => raise FileNotFoundError
       end.

(** [p.mkdir(exist_ok=True)]: nothing happens when [p] is a directory
    already; the parent is not created. *)
Definition mkdir_exist_ok (p : path) (fs : gmap path node)
    : result (gmap path node) :=
  if is_dir fs p then ret fs
  else match fs !! p with
       | Some _ => raise FileExistsError
       | None =>
           if is_dir fs (parent p) then ret (<[p := Dir]> fs)
           else match fs !! parent p with
                | Some (File _) => raise NotADirectoryError
                | _ => raise FileNotFoundError
                end
       end.

(** ** generate_kitchen_sink_v2.py and generate_kitchen_sink_v3.py: saving *)

(** Line 630 of generate_kitchen_sink_v2.py. *)
Definition kitchen_sink_v2_output_path : path :=
  ["Users"; "robby"; "projects"; "xlview"; "test"; "kitchen_sink_v2.xlsx"].

(** Line 1040 of generate_kitchen_sink_v3.py. *)
Definition kitchen_sink_v3_output_path : path :=
  ["Users"; "robby"; "projects"; "xlview"; "test"; "kitchen_sink_v3.xlsx"].

(** [wb.save(output_path)] at the end of [create_kitchen_sink] of
    generate_kitchen_sink_v2.py (lines 630-631). *)
Definition create_kitchen_sink_v2 (fs : gmap path node)
    : result (gmap path node) :=
  write_file kitchen_sink_v2_output_path (XlsxData KitchenSinkV2) fs.

(** Lines 1040-1041 of generate_kitchen_sink_v3.py. *)
Definition create_kitchen_sink_v3 (fs : gmap path node)
    : result (gmap path node) :=
  write_file kitchen_sink_v3_output_path (XlsxData KitchenSinkV3) fs.

(** ** generate_test_xlsx.py: saving, manifest and [main] *)

(** [name] matches the pattern [*.xlsx]. *)
Definition is_xlsx (name : string) : bool :=
  let n := String.length name in
  (5 <=? n)%nat && String.eqb (String.substring (n - 5) 5 name) ".xlsx".

Inductive only_choice : Set := kitchen | large | colors.

(** The parsed command line. *)
Record Args : Set := mkArgs {
  only : option only_choice;
  rows : Z;
  cols : Z;
  manifest_only : bool
}.

Section Generator.

(** [__file__], the location of the script. *)
Variable script_file : path.

(** [f.stat().st_size] of a directory entry. *)
Variable st_size : node -> Z.

(** Line 32. *)
Definition OUTPUT_DIR : path := joinpath (parent (parent script_file)) "test".

(** The last four statements of each [create_*] function (lines 280-284,
    340-344 and 391-395): make the directory, save, return the path. *)
Definition save_in_output_dir (file_name : string) (wb : fixture)
    (fs : gmap path node) : result (gmap path node * path) :=
  let* fs1 := mkdir_exist_ok OUTPUT_DIR fs in
  let output_path := joinpath OUTPUT_DIR file_name in
  let* fs2 := write_file output_path (XlsxData wb) fs1 in
  ret (fs2, output_path).

Definition create_kitchen_sink := save_in_output_dir "kitchen_sink.xlsx" KitchenSink.

(** Lines 289-338 build the workbook before anything is written.
    [ws.cell] (lines 295 and 305) takes the rows 1 to 1048576 and
    [get_column_letter] (line 338) the columns 1 to 18278; each raises
    [ValueError] outside its range.  The data rows are 2 to [rows + 1], and
    a row is reached only when there is a column. *)
Definition large_workbook_builds (rows cols : Z) : bool :=
  ((cols <? 1) || (rows + 1 <=? 1048576)) && (cols <=? 18278).

Definition create_large_file (rows cols : Z) (fs : gmap path node)
    : result (gmap path node * path) :=
  if large_workbook_builds rows cols
  then save_in_output_dir
         ("large_" ++ str_of_int rows ++ "x" ++ str_of_int cols ++ ".xlsx")
         (LargeFile rows cols) fs
  else raise ValueError.

Definition create_colors_only := save_in_output_dir "colors_test.xlsx" ColorsOnly.

(** [OUTPUT_DIR.glob("*.xlsx")], as the names of the entries found; a
    directory that does not exist has no entries. *)
Definition glob_xlsx (fs : gmap path node) : list string :=
  if is_dir fs OUTPUT_DIR then
    name <$> (map_to_list
      (filter (fun e : path * node =>
                 parent e.1 = OUTPUT_DIR /\ is_xlsx (name e.1) = true) fs)).*1
  else [].

Definition manifest_path : path := joinpath OUTPUT_DIR "manifest.json".

(** One iteration of the loop of lines 403-416. *)
Definition manifest_entry (fs : gmap path node) (f : string) : result json :=
  match fs !! joinpath OUTPUT_DIR f with
  | Some nd =>
      ret (JObject [("name", JString f);
                    ("size", JString (size_str (st_size nd)))])
  | None => raise FileNotFoundError
  end.

(** Lines 398-420. The globbed paths differ in their last component only,
    so [sorted] orders them by name; the names are pairwise distinct. *)
Definition update_manifest (fs : gmap path node) : result (gmap path node) :=
  let xlsx_files := merge_sort String.le (glob_xlsx fs) in
  let* manifest := mapM (manifest_entry fs) xlsx_files in
  write_file manifest_path (JsonData (JArray manifest)) fs.

(** Lines 424-457, after the command line is parsed. *)
Definition main (args : Args) (fs : gmap path node)
    : result (gmap path node) :=
  if manifest_only args then update_manifest fs
  else
    let* fs1 :=
      match only args with
      | Some kitchen =>
          let* r := create_kitchen_sink fs in ret r.1
      | Some large =>
          let* r := create_large_file (rows args) (cols args) fs in ret r.1
      | Some colors =>
          let* r := create_colors_only fs in ret r.1
      | None =>
          let* r1 := create_kitchen_sink fs in
          let* r2 := create_colors_only r1.1 in
          let* r3 := create_large_file (rows args) (cols args) r2.1 in
          ret r3.1
      end in
    update_manifest fs1.

End Generator.

(** ** Vocabulary of the statements *)

(** The computation raised. *)
Definition raises {A} (r : result A) : bool :=
  match r with inl _ => true | inr _ => false end.

(** The computation returned the integer [v]. *)
Definition returns_Z (r : result Z) (v : Z) : bool :=
  match r with inl _ => false | inr w => w =? v end.

Fixpoint all_hex (s : string) : bool :=
  match s with
  | EmptyString => true
  | String c s' => is_hex c && all_hex s'
  end.

(** A colour string of exactly six base-16 digits. *)
Definition is_hex6 (s : string) : bool :=
  (String.length s =? 6)%nat && all_hex s.

Definition hex_digit (c : ascii) : Z :=
  match hex_value c with Some d => d | None => 0 end.

(** The channel byte number [i] (0 red, 1 green, 2 blue) of a colour string:
    sixteen times the digit at [2 i] plus the digit at [2 i + 1]. *)
Definition channel (i : nat) (s : string) : Z :=
  match String.get (2 * i) s, String.get (2 * i + 1) s with
  | Some hi, Some lo => 16 * hex_digit hi + hex_digit lo
  | _, _ => 0
  end.

(** The luminance computed for a colour string. *)
Definition luminance_of (s : string) : float :=
  luminance (channel 0 s) (channel 1 s) (channel 2 s).

(** A cell with a value and a pattern fill whose foreground colour carries
    the string [s]. *)
Definition filled_cell (s : string) : Xl.Cell :=
  Xl.mkCell (Some (Xl.VStr "x"))
    (Some (Xl.PatternFill (Some (Xl.mkColor (Some s))))) None.

(** The 256 characters. *)
Definition all_ascii : list ascii := List.map ascii_of_nat (seq 0 256).

(** A character that no base-16 literal contains: not a digit, not white
    space, not a sign and not an underscore. *)
Definition never_numeric (c : ascii) : bool :=
  negb (is_hex c) && negb (is_space c)
  && negb (Ascii.eqb c "+") && negb (Ascii.eqb c "-")
  && negb (Ascii.eqb c "_").

(** The string the channels are cut from (line 600). *)
Definition normalised (s : string) : string :=
  if (6 <=? String.length s)%nat then last6 s else s.

(** The font colour of a cell is one of the three white strings. *)
Definition white_font (c : Xl.Cell) : bool :=
  match Xl.font c with
  | Some f =>
      match Xl.color f with
      | Some col => rgb_in col white_font_rgbs
      | None => false
      end
  | None => false
  end.

(** The value of the ["name"] member of a manifest object. *)
Definition entry_name (j : json) : option string :=
  match j with
  | JObject (("name", JString n) :: _) => Some n
  | _ => None
  end.

(** The rule "white text below 128, black text otherwise", for a function
    that picks the text colour of a six-digit background. *)
Definition strict_threshold_text (select : string -> result string) : Prop :=
  forall s, is_hex6 s = true ->
    select s = inr (if (luminance_of s <? 128)%float
                    then "FFFFFF" else "000000").

(** The rule "a background whose luminance is exactly 128 gets black
    text". *)
Definition black_text_at_128 (select : string -> result string) : Prop :=
  forall s, is_hex6 s = true -> luminance_of s = 128%float ->
    select s = inr "000000".

(** A colour string that is not six base-16 digits: it has a character
    that is no base-16 digit, or fewer than six characters. *)
Definition malformed (s : string) : bool :=
  negb (all_hex s) || (String.length s <? 6)%nat.

(** The rule "every malformed colour string is classified not dark". *)
Definition malformed_falls_back : Prop :=
  forall s, malformed s = true -> has_dark_bg (filled_cell s) = inr false.

(** The fill colour of the cell, when there is one, has an RGB string or
    reads [None]. *)
Definition rgb_fill (c : Xl.Cell) : bool :=
  match Xl.fill c with
  | Some (Xl.PatternFill (Some Xl.NoRgbColor)) => false
  | _ => true
  end.

(** The cells the sweep gets through: those without a value, which it
    skips, and those whose fill colour has an RGB string or none. *)
Definition sweepable (c : Xl.Cell) : bool :=
  match Xl.value c with
  | None => true
  | Some _ => rgb_fill c
  end.

(** [Font(name=name, size=size, bold=bold, color=color)] *)
Definition plain_font (name : option string) (size : option Z)
    (bold : option bool) (color : option Xl.Color) : Xl.Font :=
  {| Xl.name := name; Xl.size := size; Xl.bold := bold;
     Xl.italic := None; Xl.underline := None; Xl.strike := None;
     Xl.color := color; Xl.vertAlign := None; Xl.charset := None;
     Xl.outline := None; Xl.shadow := None; Xl.condense := None;
     Xl.extend := None; Xl.family := None; Xl.scheme := None |}.


(** Bold text without a font colour on a navy fill. *)
Definition bold_on_navy : Xl.Cell :=
  Xl.mkCell (Some (Xl.VStr "x"))
    (Some (Xl.PatternFill (Some (Xl.color_of_string "000080"))))
    (Some (plain_font None None (Some true) None)).

(** Text whose font colour is a theme colour, on no fill. *)
Definition theme_text : Xl.Cell :=
  Xl.mkCell (Some (Xl.VStr "x")) None
    (Some (plain_font (Some "Calibri") (Some 11) None (Some Xl.NoRgbColor))).

(** A workbook of one sheet with two rows: white text on yellow, white
    text on blue, a cell without a value, text without a font colour. *)
Definition sample_workbook : Xl.Workbook :=
  [ Xl.mkWorksheet "Sheet"
      [ [ Xl.mkCell (Some (Xl.VStr "a"))
            (Some (Xl.PatternFill (Some (Xl.color_of_string "FFFF00"))))
            (Some (plain_font (Some "Arial") (Some 14) (Some true)
                     (Some (Xl.color_of_string "FFFFFF"))));
          Xl.mkCell (Some (Xl.VStr "b"))
            (Some (Xl.PatternFill (Some (Xl.color_of_string "4472C4"))))
            (Some (plain_font None None (Some true)
                     (Some (Xl.color_of_string "FFFFFF")))) ];
        [ Xl.mkCell None
            (Some (Xl.PatternFill (Some Xl.NoRgbColor)))
            (Some (plain_font None None None None));
          Xl.mkCell (Some (Xl.VInt 1)) None
            (Some (plain_font None (Some 11) None None)) ] ] ].

(** The same workbook after the sweep. *)
Definition swept_sample_workbook : Xl.Workbook :=
  [ Xl.mkWorksheet "Sheet"
      [ [ Xl.mkCell (Some (Xl.VStr "a"))
            (Some (Xl.PatternFill (Some (Xl.color_of_string "FFFF00"))))
            (Some (plain_font (Some "Arial") (Some 14) (Some true)
                     (Some (Xl.color_of_string "000000"))));
          Xl.mkCell (Some (Xl.VStr "b"))
            (Some (Xl.PatternFill (Some (Xl.color_of_string "4472C4"))))
            (Some (plain_font None None (Some true)
                     (Some (Xl.color_of_string "FFFFFF")))) ];
        [ Xl.mkCell None
            (Some (Xl.PatternFill (Some Xl.NoRgbColor)))
            (Some (plain_font None None None None));
          Xl.mkCell (Some (Xl.VInt 1)) None
            (Some (plain_font None (Some 11) None
                     (Some (Xl.color_of_string "000000")))) ] ] ].






(** Every entry of a well-formed file system lies in a directory. *)
Definition fs_wf (fs : gmap path node) : Prop :=
  forall p nd, fs !! p = Some nd -> is_dir fs (parent p) = true.

(** The file system a run leaves, without the returned path. *)
Definition fs_of (r : result (gmap path node * path))
    : result (gmap path node) :=
  let* x := r in ret x.1.

(** The rule "the generator writes its workbook into the directory [test]
    next to the directory of the script, and makes that directory when it
    is missing", for a generator run from the script location
    [script_file]. *)
Definition creates_output_dir
    (gen : path -> gmap path node -> result (gmap path node)) : Prop :=
  forall script_file fs,
    fs_wf fs ->
    is_dir fs (parent (OUTPUT_DIR script_file)) = true ->
    fs !! OUTPUT_DIR script_file = None ->
    exists fs' file_name wb,
      gen script_file fs = inr fs' /\
      fs' !! OUTPUT_DIR script_file = Some Dir /\
      fs' !! joinpath (OUTPUT_DIR script_file) file_name
        = Some (File (XlsxData wb)).

(** The directory the absolute paths of generate_kitchen_sink_v2.py and
    generate_kitchen_sink_v3.py point into. *)
Definition robby_test_dir : path :=
  ["Users"; "robby"; "projects"; "xlview"; "test"].

(** A checkout at the location the absolute paths were written for, before
    any fixture has been generated: the script lies in
    [/Users/robby/projects/xlview/scripts] and there is no [test]
    directory. *)
Definition robby_script : path :=
  ["Users"; "robby"; "projects"; "xlview"; "scripts";
   "generate_kitchen_sink_v2.py"].

Definition fresh_checkout : gmap path node :=
  <[ ["Users"] := Dir ]>
  (<[ ["Users"; "robby"] := Dir ]>
  (<[ ["Users"; "robby"; "projects"] := Dir ]>
  (<[ ["Users"; "robby"; "projects"; "xlview"] := Dir ]>
  (<[ ["Users"; "robby"; "projects"; "xlview"; "scripts"] := Dir ]>
  (<[ robby_script := File (Blob "script") ]> ∅))))).

(** The manifest object of the entry [f] of the output directory. *)
Definition is_entry_of (script_file : path) (st_size : node -> Z)
    (fs : gmap path node) (f : string) (j : json) : Prop :=
  exists nd, fs !! joinpath (OUTPUT_DIR script_file) f = Some nd /\
    j = JObject [("name", JString f);
                 ("size", JString (size_str (st_size nd)))].

(** A checkout with two workbooks, a text file and an old manifest in its
    [test] directory. *)
Definition sample_fs : gmap path node :=
  let test := OUTPUT_DIR robby_script in
  <[ test := Dir ]>
  (<[ joinpath test "large_10x2.xlsx" := File (XlsxData (LargeFile 10 2)) ]>
  (<[ joinpath test "colors_test.xlsx" := File (XlsxData ColorsOnly) ]>
  (<[ joinpath test "notes.txt" := File (Blob "notes") ]>
  (<[ joinpath test "manifest.json" := File (JsonData (JArray [])) ]>
   fresh_checkout)))).

Definition sample_st_size (nd : node) : Z :=
  match nd with
  | Dir => 4096
  | File (XlsxData (LargeFile _ _)) => 1500000
  | File (XlsxData _) => 45678
  | File _ => 120
  end.

(** ** Vocabulary of the further statements *)

(** ** The greyscale row of [create_colors_only] (lines 364-370) *)

(** The upper-case base-16 digit of value [d]. *)
Definition hex_upper_digit (d : Z) : ascii :=
  ascii_of_N (Z.to_N (if d <? 10 then 48 + d else 55 + d)).

Fixpoint hex_upper_aux (fuel : nat) (n : Z) (acc : string) : string :=
  match fuel with
  | O => acc
  | S fuel' =>
      let acc' := String (hex_upper_digit (n mod 16)) acc in
      if n / 16 =? 0 then acc' else hex_upper_aux fuel' (n / 16) acc'
  end.

(** The base-16 digits of [n >= 0], most significant first. *)
Definition hex_upper (n : Z) : string :=
  hex_upper_aux (S (Z.to_nat (Z.log2 n))) n "".

(** [format(n, '02X')]: upper-case base 16, padded with zeros to two
    characters, the sign of a negative number counting as one. *)
Definition format_02X (n : Z) : string :=
  if n <? 0 then "-" ++ hex_upper (- n)
  else
    let s := hex_upper n in
    if (String.length s <? 2)%nat then "0" ++ s else s.

(** [int(x)] of a float: the integer part, towards zero; [None] where
    Python raises (infinities and NaN). *)
Definition int_of_float (x : float) : option Z :=
  match Prim2SF x with
  | S754_zero _ => Some 0
  | S754_finite sgn m e =>
      let a := if 0 <=? e then Z.pos m * 2 ^ e else Z.pos m / 2 ^ (- e) in
      Some (if sgn then - a else a)
  | S754_infinity _ | S754_nan => None
  end.

(** [int(255 * i / 9)] *)
Definition gray_level (i : Z) : option Z :=
  int_of_float (float_of_int (255 * i) / 9)%float.

(** [s * 3] *)
Definition thrice (s : string) : string := s ++ s ++ s.

(** The body of the loop for the index [i]: the colour of the fill, the
    value of the cell, and the colour of the font that is assigned when
    [i < 5] ([None]: no font is assigned). *)
Definition grayscale_cell (i : Z) : option (string * string * option string) :=
  match gray_level i with
  | Some level =>
      let gray := thrice (format_02X level) in
      Some (gray, "#" ++ gray, if i <? 5 then Some "FFFFFF" else None)
  | None => None
  end.


(** ** The files [main] is to write *)

(** The name [create_large_file] gives its workbook (line 341). *)
Definition large_file_name (rows cols : Z) : string :=
  "large_" ++ str_of_int rows ++ "x" ++ str_of_int cols ++ ".xlsx".

(** The file names and workbooks of the generators that [main] runs for the
    parsed command line (lines 442-452), in the order it runs them. *)
Definition generated_files (args : Args) : list (string * fixture) :=
  let lg := (large_file_name (rows args) (cols args),
             LargeFile (rows args) (cols args)) in
  match only args with
  | Some kitchen => [("kitchen_sink.xlsx", KitchenSink)]
  | Some large => [lg]
  | Some colors => [("colors_test.xlsx", ColorsOnly)]
  | None => [("kitchen_sink.xlsx", KitchenSink);
             ("colors_test.xlsx", ColorsOnly); lg]
  end.

(** Saving a list of workbooks one after the other. *)
Fixpoint save_all (script_file : path) (files : list (string * fixture))
    (fs : gmap path node) : result (gmap path node) :=
  match files with
  | [] => ret fs
  | (file_name, wb) :: files' =>
      let* r := save_in_output_dir script_file file_name wb fs in
      save_all script_file files' r.1
  end.

(** The file system with the listed workbooks put into the output
    directory. *)
Definition put_all (script_file : path) (files : list (string * fixture))
    (fs : gmap path node) : gmap path node :=
  fold_left
    (fun m (e : string * fixture) =>
       <[joinpath (OUTPUT_DIR script_file) e.1 := File (XlsxData e.2)]> m)
    files fs.


(** Every character of [s] satisfies [P]. *)
Fixpoint string_all (P : ascii -> bool) (s : string) : bool :=
  match s with
  | EmptyString => true
  | String c s' => P c && string_all P s'
  end.

(** A decimal digit or the minus sign. *)
Definition digit_or_minus (c : ascii) : bool :=
  ((48 <=? code c) && (code c <=? 57)) || Ascii.eqb c "-".

(** * Properties *)

Example size_str_mb : size_str 1500000 = "1.5MB". Proof. reflexivity. Qed.
Example size_str_kb : size_str 45678 = "45.7KB". Proof. reflexivity. Qed.
Example size_str_kb_tie : size_str 1250 = "1.2KB". Proof. reflexivity. Qed.
Example size_str_b : size_str 1000 = "1000B". Proof. reflexivity. Qed.
Example size_str_million : size_str 1000000 = "1000.0KB".
Proof. reflexivity. Qed.

(** 808080 has luminance 128 in exact arithmetic, a little less in
    binary64. *)
Example lum_mid_grey : (luminance 128 128 128 <? 128)%float = true.
Proof. reflexivity. Qed.

(** ** The override set *)

(** C3: a cell whose fill foreground colour is absent, or is one of the
    strings "FFFFFF", "ffffff", "#FFFFFF", "#ffffff", is classified light,
    and this for every weighted-sum formula: the override set is consulted
    before the formula is. *)
Theorem override_set_is_light :
  forall (formula : Z -> Z -> Z -> float) (c : Xl.Cell),
    (Xl.fill c = None \/
     Xl.fill c = Some Xl.GradientFill \/
     Xl.fill c = Some (Xl.PatternFill None) \/
     exists s, Xl.fill c = Some (Xl.PatternFill (Some (Xl.mkColor s)))
               /\ In s [None; Some "FFFFFF"; Some "ffffff";
                        Some "#FFFFFF"; Some "#ffffff"]) ->
    has_dark_bg_with formula c = inr false.
Proof.
  intros formula c H. unfold has_dark_bg_with.
  destruct H as [-> | [-> | [-> | (s & -> & Hin)]]]; try reflexivity.
  cbn [In] in *.
  destruct Hin as [<- | [<- | [<- | [<- | [<- | []]]]]]; reflexivity.
Qed.

Lemma override_set_is_light_witness :
  has_dark_bg_with (fun _ _ _ => 0%float)
    (Xl.mkCell (Some (Xl.VStr "x"))
       (Some (Xl.PatternFill (Some (Xl.mkColor (Some "ffffff"))))) None)
  = inr false.
Proof.
  apply override_set_is_light. right. right. right.
  exists (Some "ffffff"). split; [reflexivity | cbn; auto].
Defined.

(** ** Characters and the base-16 parse *)

Lemma all_ascii_complete (c : ascii) : In c all_ascii.
Proof.
  unfold all_ascii. rewrite <- (ascii_nat_embedding c).
  apply in_map, in_seq. pose proof (nat_ascii_bounded c). lia.
Qed.

Lemma ascii_forallb (P : ascii -> bool) :
  forallb P all_ascii = true -> forall c, P c = true.
Proof.
  intros H c. rewrite forallb_forall in H. apply H, all_ascii_complete.
Qed.

(** Two base-16 digits parse to the byte they denote. *)
Lemma int16_hex_pair (hi lo : ascii) :
  is_hex hi = true -> is_hex lo = true ->
  int16 (String hi (String lo "")) = inr (16 * hex_digit hi + hex_digit lo).
Proof.
  pose (chk := fun hi lo =>
    implb (is_hex hi && is_hex lo)
      (returns_Z (int16 (String hi (String lo "")))
                 (16 * hex_digit hi + hex_digit lo))).
  assert (Hall : forallb (fun a => forallb (chk a) all_ascii) all_ascii = true)
    by (vm_compute; reflexivity).
  intros Hhi Hlo.
  pose proof (ascii_forallb _ (ascii_forallb _ Hall hi) lo) as H.
  unfold chk in H. rewrite Hhi, Hlo in H. cbn [andb implb] in H.
  unfold returns_Z in H.
  destruct (int16 (String hi (String lo ""))) as [e | w]; [discriminate |].
  apply Z.eqb_eq in H. now subst.
Qed.

Lemma hex_digit_range (c : ascii) : 0 <= hex_digit c <= 15.
Proof.
  pose (chk := fun c => (0 <=? hex_digit c) && (hex_digit c <=? 15)).
  assert (Hall : forallb chk all_ascii = true) by (vm_compute; reflexivity).
  pose proof (ascii_forallb _ Hall c) as H. unfold chk in H.
  apply andb_prop in H as [H1 H2]. lia.
Qed.

Lemma int16_only_ValueError (s : string) (e : exn) :
  int16 s = inl e -> e = ValueError.
Proof.
  unfold int16.
  destruct (match skip_space s with
            | String "+" t => (false, t)
            | String "-" t => (true, t)
            | _ => (false, skip_space s)
            end) as [neg s2].
  destruct (scan_digits 0 false false (strip_prefix s2));
    unfold ret, raise; congruence.
Qed.

(** A character that no literal contains makes the parse of a one- or
    two-character string raise. *)
Lemma int16_junk1 (a : ascii) :
  never_numeric a = true -> int16 (String a "") = inl ValueError.
Proof.
  pose (chk := fun a =>
    implb (never_numeric a) (raises (int16 (String a "")))).
  assert (Hall : forallb chk all_ascii = true) by (vm_compute; reflexivity).
  intros Ha. pose proof (ascii_forallb _ Hall a) as H.
  unfold chk in H. rewrite Ha in H. cbn [implb] in H.
  destruct (int16 (String a "")) as [e | w] eqn:E; [| discriminate H].
  now rewrite (int16_only_ValueError _ _ E).
Qed.


Lemma int16_junk2 (a b : ascii) :
  never_numeric a || never_numeric b = true ->
  int16 (String a (String b "")) = inl ValueError.
Proof.
  pose (chk := fun a b =>
    implb (never_numeric a || never_numeric b)
          (raises (int16 (String a (String b ""))))).
  assert (Hall : forallb (fun a => forallb (chk a) all_ascii) all_ascii = true)
    by (vm_compute; reflexivity).
  intros Hab.
  pose proof (ascii_forallb _ (ascii_forallb _ Hall a) b) as H.
  unfold chk in H. rewrite Hab in H. cbn [implb] in H.
  destruct (int16 (String a (String b ""))) as [e | w] eqn:E;
    [| discriminate H].
  now rewrite (int16_only_ValueError _ _ E).
Qed.

(** ** The luminance test on six-digit colours *)

Lemma mul_comm_byte (r : Z) :
  0 <= r < 256 ->
  (float_of_int r * 0.299 = 0.299 * float_of_int r /\
   float_of_int r * 0.587 = 0.587 * float_of_int r /\
   float_of_int r * 0.114 = 0.114 * float_of_int r)%float.
Proof.
  intros Hr. rewrite <- (Z2Nat.id r) by lia.
  assert (Hn : (Z.to_nat r < 256)%nat) by lia.
  generalize dependent (Z.to_nat r). clear r Hr. intros n Hn.
  do 256 (destruct n as [| n]; [repeat split; reflexivity |]).
  lia.
Qed.

Lemma luminance_co_byte (r g b : Z) :
  0 <= r < 256 -> 0 <= g < 256 -> 0 <= b < 256 ->
  luminance_co r g b = luminance r g b.
Proof.
  intros Hr Hg Hb. unfold luminance_co, luminance.
  destruct (mul_comm_byte r Hr) as (-> & _ & _).
  destruct (mul_comm_byte g Hg) as (_ & -> & _).
  destruct (mul_comm_byte b Hb) as (_ & _ & ->).
  reflexivity.
Qed.

Lemma hex_pair_range (hi lo : ascii) :
  0 <= 16 * hex_digit hi + hex_digit lo < 256.
Proof.
  pose proof (hex_digit_range hi). pose proof (hex_digit_range lo). lia.
Qed.

(** On six base-16 digits the three parses return the channel bytes. *)
Lemma hex6_channels (s : string) :
  is_hex6 s = true ->
  normalised s = s /\
  int16 (slice 0 2 s) = inr (channel 0 s) /\
  int16 (slice 2 4 s) = inr (channel 1 s) /\
  int16 (slice 4 6 s) = inr (channel 2 s) /\
  0 <= channel 0 s < 256 /\ 0 <= channel 1 s < 256 /\
  0 <= channel 2 s < 256.
Proof.
  unfold is_hex6. intros H. apply andb_prop in H as [Hlen Hhex].
  destruct s as [| c1 [| c2 [| c3 [| c4 [| c5 [| c6 [| c7 s]]]]]]];
    try discriminate Hlen.
  cbn [all_hex] in Hhex.
  repeat (apply andb_prop in Hhex as [? Hhex]).
  unfold channel. cbn [String.get Nat.mul Nat.add Nat.eqb].
  repeat split; try apply hex_pair_range;
    try (apply int16_hex_pair; assumption).
Qed.

Lemma hex6_override (s : string) :
  is_hex6 s = true -> py_in (Some s) white_bg_cells = true ->
  (luminance_of s <? 128)%float = false.
Proof.
  intros H6 Hin. unfold py_in, white_bg_cells in Hin. cbn [existsb] in Hin.
  unfold opt_string_eqb in Hin.
  repeat (apply orb_prop in Hin as [Hin | Hin]);
    try discriminate Hin;
    apply String.eqb_eq in Hin; subst s;
    first [ discriminate H6 | reflexivity ].
Qed.

Lemma rgb_dark_hex6 (s : string) :
  is_hex6 s = true ->
  rgb_dark luminance (Some s) = inr (luminance_of s <? 128)%float.
Proof.
  intros H6.
  destruct (hex6_channels s H6) as (Hn & H0 & H1 & H2 & _).
  assert (Htruthy : truthy (Some s) = true).
  { destruct s; [discriminate H6 | reflexivity]. }
  unfold rgb_dark. rewrite Htruthy. cbn [andb].
  destruct (py_in (Some s) white_bg_cells) eqn:Hin; cbn [negb].
  - now rewrite (hex6_override s H6 Hin).
  - fold (normalised s). rewrite Hn.
    unfold channels_dark. rewrite H0, H1, H2. reflexivity.
Qed.

Lemma contrast_font_hex6 (s : string) :
  is_hex6 s = true ->
  contrast_font s
  = inr (if (128 <? luminance_of s)%float then "000000" else "FFFFFF").
Proof.
  intros H6.
  destruct (hex6_channels s H6) as (_ & H0 & H1 & H2 & R0 & R1 & R2).
  unfold contrast_font. rewrite H0, H1, H2. cbn [bind].
  rewrite luminance_co_byte by assumption. reflexivity.
Qed.

Lemma has_dark_bg_hex6 (s : string) :
  is_hex6 s = true ->
  has_dark_bg (filled_cell s) = inr (luminance_of s <? 128)%float.
Proof.
  intros H6.
  unfold has_dark_bg, has_dark_bg_with, filled_cell. cbn [Xl.fill].
  now rewrite (rgb_dark_hex6 s H6).
Qed.

(** C1, as amended: for every colour string of six base-16 digits both
    sites compute the binary64 sum 0.299 R + 0.587 G + 0.114 B of the three
    channel bytes. The sweep of generate_kitchen_sink_v2.py marks the
    background dark exactly when that luminance is below 128 and light
    otherwise; create_colors_only picks black text exactly when it is above
    128 and white text otherwise. *)
Theorem contrast_by_luminance (s : string) :
  is_hex6 s = true ->
  has_dark_bg (filled_cell s) = inr (luminance_of s <? 128)%float /\
  contrast_font s
  = inr (if (128 <? luminance_of s)%float then "000000" else "FFFFFF").
Proof.
  intros H6. split.
  - now apply has_dark_bg_hex6.
  - now apply contrast_font_hex6.
Qed.

Lemma contrast_by_luminance_witness :
  has_dark_bg (filled_cell "4472C4") = inr true /\
  contrast_font "4472C4" = inr "FFFFFF".
Proof. exact (contrast_by_luminance "4472C4" eq_refl). Defined.

(** C1 as stated fails for create_colors_only: the six-digit colour 01BD93
    has luminance exactly 128, not below it, and gets white text. *)
Lemma contrast_font_not_strict_threshold :
  ~ strict_threshold_text contrast_font.
Proof.
  intros H. specialize (H "01BD93" eq_refl). vm_compute in H. discriminate H.
Qed.

(** On the eighteen colours it is applied to, the expression of
    create_colors_only agrees with the strict rule: none of them has
    luminance 128. *)
Lemma theme_colors_strict_threshold :
  Forall (fun s =>
            is_hex6 s = true /\
            contrast_font s
            = inr (if (luminance_of s <? 128)%float
                   then "FFFFFF" else "000000"))
         (concat theme_colors).
Proof. repeat constructor. Qed.

(** C2, as amended: a six-digit colour whose computed luminance is exactly
    128 is classified light by the sweep of generate_kitchen_sink_v2.py,
    whose test is a strict less-than, and gets white text from
    create_colors_only, whose test for black text is a strict
    greater-than. *)
Theorem luminance_exactly_128 (s : string) :
  is_hex6 s = true -> luminance_of s = 128%float ->
  has_dark_bg (filled_cell s) = inr false /\
  contrast_font s = inr "FFFFFF".
Proof.
  intros H6 H128.
  rewrite (has_dark_bg_hex6 s H6), (contrast_font_hex6 s H6), H128.
  split; reflexivity.
Qed.

Lemma luminance_exactly_128_witness :
  has_dark_bg (filled_cell "05B3BC") = inr false /\
  contrast_font "05B3BC" = inr "FFFFFF".
Proof. exact (luminance_exactly_128 "05B3BC" eq_refl eq_refl). Defined.

(** C2 as stated fails for create_colors_only: 04D21F has luminance
    exactly 128 and does not get black text. *)
Lemma contrast_font_not_black_at_128 : ~ black_text_at_128 contrast_font.
Proof.
  intros H. specialize (H "04D21F" eq_refl eq_refl). vm_compute in H.
  discriminate H.
Qed.

(** ** Malformed colour strings *)

Lemma channels_dark_only_ValueError formula (rgb : string) (e : exn) :
  channels_dark formula rgb = inl e -> e = ValueError.
Proof.
  unfold channels_dark.
  destruct (int16 (slice 0 2 rgb)) eqn:E0; cbn [bind];
    [intros [= <-]; eauto using int16_only_ValueError |].
  destruct (int16 (slice 2 4 rgb)) eqn:E1; cbn [bind];
    [intros [= <-]; eauto using int16_only_ValueError |].
  destruct (int16 (slice 4 6 rgb)) eqn:E2; cbn [bind];
    [intros [= <-]; eauto using int16_only_ValueError |].
  discriminate.
Qed.

(** A parse that raises on one of the three substrings makes the body of
    the inner [try] raise [ValueError]. *)
Lemma channels_dark_raises formula (rgb : string) :
  raises (int16 (slice 0 2 rgb)) || raises (int16 (slice 2 4 rgb))
    || raises (int16 (slice 4 6 rgb)) = true ->
  channels_dark formula rgb = inl ValueError.
Proof.
  intros H.
  destruct (channels_dark formula rgb) as [e | b] eqn:E.
  - now rewrite (channels_dark_only_ValueError _ _ _ E).
  - exfalso. unfold channels_dark in E.
    destruct (int16 (slice 0 2 rgb)); [discriminate E |].
    destruct (int16 (slice 2 4 rgb)); [discriminate E |].
    destruct (int16 (slice 4 6 rgb)); [discriminate E |].
    discriminate H.
Qed.

Lemma rgb_dark_total formula (s : option string) :
  exists b, rgb_dark formula s = inr b.
Proof.
  unfold rgb_dark.
  destruct (truthy s && negb (py_in s white_bg_cells)); [| now exists false].
  destruct s as [str |]; [| now exists false].
  destruct (channels_dark formula _) as [e | b] eqn:E.
  - rewrite (channels_dark_only_ValueError _ _ _ E). now exists false.
  - now exists b.
Qed.

(** The contrast test returns unless the fill colour has no RGB string;
    then it raises [TypeError]. *)
Lemma has_dark_bg_returns formula (c : Xl.Cell) :
  rgb_fill c = true -> exists b, has_dark_bg_with formula c = inr b.
Proof.
  unfold rgb_fill, has_dark_bg_with.
  destruct (Xl.fill c) as [[[[s |] |] |] |]; intros H;
    try (now exists false); try discriminate H.
  destruct (rgb_dark_total formula s) as [b ->]. now exists b.
Qed.

Lemma has_dark_bg_raises formula (c : Xl.Cell) :
  rgb_fill c = false -> has_dark_bg_with formula c = inl TypeError.
Proof.
  unfold rgb_fill, has_dark_bg_with.
  destruct (Xl.fill c) as [[[[s |] |] |] |]; intros H;
    try discriminate H; reflexivity.
Qed.

Lemma rgb_dark_parse_failure formula (s : string) :
  channels_dark formula (normalised s) = inl ValueError ->
  rgb_dark formula (Some s) = inr false.
Proof.
  intros H. unfold rgb_dark.
  destruct (truthy (Some s) && negb (py_in (Some s) white_bg_cells));
    [| reflexivity].
  fold (normalised s). now rewrite H.
Qed.

Lemma short_string_raises formula (rgb : string) :
  (String.length rgb < 5)%nat -> channels_dark formula rgb = inl ValueError.
Proof.
  intros Hlen. apply channels_dark_raises.
  destruct rgb as [| c1 [| c2 [| c3 [| c4 [| c5 rgb]]]]];
    cbn in Hlen; try lia;
    rewrite orb_true_iff; right; reflexivity.
Qed.

Lemma substring_0_0 (s : string) : String.substring 0 0 s = "".
Proof. destruct s; reflexivity. Qed.

Lemma junk_raises formula (rgb : string) (i : nat) (ch : ascii) :
  (i < 6)%nat -> String.get i rgb = Some ch -> never_numeric ch = true ->
  channels_dark formula rgb = inl ValueError.
Proof.
  intros Hi Hget Hch. apply channels_dark_raises.
  assert (J1 : forall a, raises (int16 (String ch (String a ""))) = true).
  { intros a. rewrite int16_junk2; [reflexivity |]. now rewrite Hch. }
  assert (J2 : forall a, raises (int16 (String a (String ch ""))) = true).
  { intros a. rewrite int16_junk2; [reflexivity |].
    rewrite Hch. apply orb_true_r. }
  assert (J0 : raises (int16 (String ch "")) = true).
  { now rewrite int16_junk1. }
  destruct rgb as [| c1 [| c2 [| c3 [| c4 [| c5 [| c6 rgb]]]]]];
    do 6 (try destruct i as [| i]); try lia;
    cbn in Hget; try discriminate Hget;
    injection Hget as ->;
    unfold slice; cbn [String.substring Nat.sub];
    rewrite ?substring_0_0, ?J0, ?J1, ?J2, ?orb_true_r; reflexivity.
Qed.

(** C4, as amended: on a fill colour that is a string the contrast test
    does not raise, whatever the string. Whenever the base-16 parse rejects
    one of the three channel substrings it falls back to "not dark": so for
    every string of fewer than five characters, and for every string that
    has, among the characters the channels are cut from, one that is neither
    a digit, white space, a sign nor an underscore (such as ZZZZZZ). *)
Theorem malformed_colour_fallback :
  (forall s : string, exists b, has_dark_bg (filled_cell s) = inr b) /\
  (forall s : string,
     (String.length s < 5)%nat \/
     (exists i ch, (i < 6)%nat /\ String.get i (normalised s) = Some ch
                   /\ never_numeric ch = true) ->
     has_dark_bg (filled_cell s) = inr false).
Proof.
  split.
  - intros s. now apply has_dark_bg_returns.
  - intros s H. unfold has_dark_bg, has_dark_bg_with, filled_cell.
    cbn [Xl.fill].
    rewrite rgb_dark_parse_failure; [reflexivity |].
    destruct H as [Hlen | (i & ch & Hi & Hget & Hch)].
    + apply short_string_raises. unfold normalised.
      destruct (6 <=? String.length s)%nat eqn:E; [| assumption].
      apply Nat.leb_le in E. lia.
    + eapply junk_raises; eassumption.
Qed.

Lemma malformed_colour_fallback_witness :
  has_dark_bg (filled_cell "ZZZZZZ") = inr false /\
  has_dark_bg (filled_cell "FFF") = inr false.
Proof.
  split; apply (proj2 malformed_colour_fallback).
  - right. exists 0%nat, "Z"%char. repeat split. lia.
  - left. cbn. lia.
Defined.

(** C4 as stated fails: the five-digit string 00000 is cut into 00, 00 and
    0, all three parse, and the background is classified dark. *)
Lemma five_digits_not_fallback : ~ malformed_falls_back.
Proof.
  intros H. specialize (H "00000" eq_refl). vm_compute in H. discriminate H.
Qed.

(** White space is accepted by the parse as well. *)
Example spaced_zeros_dark : has_dark_bg (filled_cell " 0 0 0") = inr true.
Proof. reflexivity. Qed.

(** A fill colour given by a theme is not a malformed string: its [rgb] is
    no string at all, and the test raises. *)
Example theme_fill_raises :
  has_dark_bg (Xl.mkCell (Some (Xl.VStr "x"))
                 (Some (Xl.PatternFill (Some Xl.NoRgbColor))) None)
  = inl TypeError.
Proof. reflexivity. Qed.

(** ** The font sweep *)

Lemma mapM_inr {A B} (f : A -> result B) (l : list A) (ys : list B) :
  mapM f l = inr ys -> Forall2 (fun x y => f x = inr y) l ys.
Proof.
  revert ys. induction l as [| x l IH]; intros ys H; cbn in H.
  - injection H as <-. constructor.
  - destruct (f x) as [e | y] eqn:Ex; [discriminate H |]. cbn in H.
    destruct (mapM f l) as [e | ys'] eqn:El; [discriminate H |]. cbn in H.
    injection H as <-. constructor; auto.
Qed.

Lemma mapM_total {A B} (f : A -> result B) (l : list A) :
  (forall x, In x l -> exists y, f x = inr y) -> exists ys, mapM f l = inr ys.
Proof.
  induction l as [| x l IH]; intros H; cbn.
  - now exists [].
  - destruct (H x (or_introl eq_refl)) as [y ->].
    destruct IH as [ys ->]; [intros; apply H; now right |].
    now exists (y :: ys).
Qed.

Lemma Forall2_concat_rows {A B} (R : A -> B -> Prop) ls ls' :
  Forall2 (Forall2 R) ls ls' -> Forall2 R (concat ls) (concat ls').
Proof.
  induction 1; cbn; [constructor | now apply Forall2_app].
Qed.

Lemma mapM_only {A B} (f : A -> result B) (l : list A) (e e' : exn) :
  (forall x e0, In x l -> f x = inl e0 -> e0 = e) ->
  mapM f l = inl e' -> e' = e.
Proof.
  induction l as [| x l IH]; intros Hf H; cbn in H; [discriminate H |].
  destruct (f x) as [e0 | y] eqn:Ex.
  - injection H as <-. apply (Hf x); [now left | exact Ex].
  - cbn in H. destruct (mapM f l) as [e0 | ys]; [| discriminate H].
    injection H as <-. apply IH; [| reflexivity].
    intros x0 e1 Hin. apply Hf. now right.
Qed.

Lemma sweep_cell_returns (c : Xl.Cell) :
  sweepable c = true -> exists c', sweep_cell c = inr c'.
Proof.
  unfold sweepable, sweep_cell. destruct (Xl.value c); [| now exists c].
  intros H. destruct (has_dark_bg_returns luminance c H) as [dark Hd].
  unfold has_dark_bg. rewrite Hd. cbn [bind].
  destruct (Xl.font c) as [f |]; [| now exists c].
  destruct (needs_black (Xl.color f) dark); eauto.
Qed.

Lemma sweep_cell_raises (c : Xl.Cell) :
  sweepable c = false -> sweep_cell c = inl TypeError.
Proof.
  unfold sweepable, sweep_cell. destruct (Xl.value c); [| discriminate].
  intros H. unfold has_dark_bg. now rewrite (has_dark_bg_raises luminance c H).
Qed.

Lemma sweep_cell_only_TypeError (c : Xl.Cell) (e : exn) :
  sweep_cell c = inl e -> e = TypeError.
Proof.
  destruct (sweepable c) eqn:E.
  - destruct (sweep_cell_returns c E) as [c' ->]. discriminate.
  - rewrite (sweep_cell_raises c E). now intros [= <-].
Qed.

(** The sweep acts cell by cell. *)
Lemma sweep_cells (wb wb' : Xl.Workbook) :
  sweep wb = inr wb' ->
  Forall2 (fun c c' => sweep_cell c = inr c') (cells wb) (cells wb').
Proof.
  intros H. apply mapM_inr in H. unfold cells.
  apply Forall2_concat_rows, Forall2_concat_rows.
  induction H as [| ws ws' wb wb' Hws _ IH]; cbn; constructor; [| exact IH].
  unfold sweep_sheet in Hws.
  destruct (mapM (mapM sweep_cell) (Xl.iter_rows ws)) as [e | rows] eqn:E;
    [discriminate Hws |].
  cbn in Hws. injection Hws as <-. cbn [Xl.iter_rows].
  apply mapM_inr in E.
  induction E as [| r r' rs rs' Hr _ IHr]; constructor; [| exact IHr].
  now apply mapM_inr.
Qed.

Lemma has_dark_bg_fill (c c' : Xl.Cell) :
  Xl.fill c' = Xl.fill c -> has_dark_bg c' = has_dark_bg c.
Proof. intros H. unfold has_dark_bg, has_dark_bg_with. now rewrite H. Qed.


Lemma sweep_cell_contrast (c c' : Xl.Cell) :
  sweep_cell c = inr c' -> Xl.value c' <> None ->
  ~ (white_font c' = true /\ has_dark_bg c' = inr false).
Proof.
  unfold sweep_cell. intros H Hv [Hw Hd].
  destruct (Xl.value c) as [v |] eqn:Ev.
  2:{ injection H as <-. congruence. }
  destruct (has_dark_bg c) as [e | dark] eqn:Edark; [discriminate H |].
  cbn [bind] in H.
  destruct (Xl.font c) as [f |] eqn:Ef.
  2:{ injection H as <-. unfold white_font in Hw. rewrite Ef in Hw.
      discriminate Hw. }
  destruct (needs_black (Xl.color f) dark) eqn:Enb.
  - injection H as <-. discriminate Hw.
  - injection H as <-. unfold white_font in Hw. rewrite Ef in Hw.
    unfold needs_black in Enb.
    destruct (Xl.color f) as [col |]; [| discriminate Enb].
    rewrite Hw in Enb. rewrite Edark in Hd. injection Hd as ->.
    discriminate Enb.
Qed.

Example sweep_white_on_light :
  sweep_cell (Xl.mkCell (Some (Xl.VStr "x"))
                (Some (Xl.PatternFill (Some (Xl.color_of_string "FFFF00"))))
                (Some (plain_font None (Some 14) (Some true)
                         (Some (Xl.color_of_string "FFFFFF")))))
  = inr (Xl.mkCell (Some (Xl.VStr "x"))
           (Some (Xl.PatternFill (Some (Xl.mkColor (Some "00FFFF00")))))
           (Some (plain_font None (Some 14) (Some true)
                    (Some (Xl.mkColor (Some "00000000")))))).
Proof. reflexivity. Qed.

Example sweep_white_on_dark :
  let c := Xl.mkCell (Some (Xl.VStr "x"))
             (Some (Xl.PatternFill (Some (Xl.color_of_string "4472C4"))))
             (Some (plain_font None None (Some true)
                      (Some (Xl.color_of_string "FFFFFF")))) in
  sweep_cell c = inr c.
Proof. reflexivity. Qed.

Example sweep_sample_workbook :
  sweep sample_workbook = inr swept_sample_workbook.
Proof. reflexivity. Qed.

Lemma sweep_cells_source (wb wb' : Xl.Workbook) (c' : Xl.Cell) :
  sweep wb = inr wb' -> In c' (cells wb') ->
  exists c, In c (cells wb) /\ sweep_cell c = inr c'.
Proof.
  intros Hs Hin. apply sweep_cells in Hs.
  induction Hs as [| c d cs ds Hcd _ IH]; cbn in Hin.
  - destruct Hin.
  - destruct Hin as [-> | Hin].
    + exists c. split; [now left | exact Hcd].
    + destruct (IH Hin) as (c0 & Hc0 & Hsw). exists c0. split; [now right |].
      exact Hsw.
Qed.

(** C5: after a sweep that returns, no cell with a value has a font colour
    among FFFFFFFF, 00FFFFFF, FFFFFF while its background is classified
    light. *)
Theorem no_white_on_light_after_sweep (wb wb' : Xl.Workbook) :
  sweep wb = inr wb' ->
  forall c', In c' (cells wb') -> Xl.value c' <> None ->
    ~ (white_font c' = true /\ has_dark_bg c' = inr false).
Proof.
  intros Hs c' Hin.
  destruct (sweep_cells_source wb wb' c' Hs Hin) as (c & _ & Hc).
  now apply (sweep_cell_contrast c).
Qed.

Lemma no_white_on_light_after_sweep_witness :
  sweep sample_workbook = inr swept_sample_workbook /\
  forall c', In c' (cells swept_sample_workbook) -> Xl.value c' <> None ->
    ~ (white_font c' = true /\ has_dark_bg c' = inr false).
Proof.
  split; [reflexivity |].
  apply (no_white_on_light_after_sweep sample_workbook). reflexivity.
Defined.




(** ** Paths and the file system *)

Lemma parent_joinpath (d : path) (n : string) : parent (joinpath d n) = d.
Proof. unfold parent, joinpath. apply removelast_last. Qed.

Lemma name_joinpath (d : path) (n : string) : name (joinpath d n) = n.
Proof. unfold name, joinpath. apply last_last. Qed.

Lemma joinpath_not_root (d : path) (n : string) : joinpath d n <> [].
Proof. unfold joinpath. destruct d; discriminate. Qed.

Lemma joinpath_parent_name (p : path) :
  p <> [] -> joinpath (parent p) (name p) = p.
Proof.
  intros H. unfold joinpath, parent, name.
  symmetry. now apply app_removelast_last.
Qed.

Lemma joinpath_neq_self (d : path) (n : string) : joinpath d n <> d.
Proof.
  unfold joinpath. intros H. apply (f_equal (@List.length _)) in H.
  rewrite length_app in H. cbn in H. lia.
Qed.

Lemma is_dir_None (fs : gmap path node) (p : path) :
  p <> [] -> fs !! p = None -> is_dir fs p = false.
Proof. intros Hp H. unfold is_dir. destruct p; [congruence |]. now rewrite H. Qed.

Lemma is_dir_Dir (fs : gmap path node) (p : path) :
  fs !! p = Some Dir -> is_dir fs p = true.
Proof. intros H. unfold is_dir. destruct p; [reflexivity |]. now rewrite H. Qed.

Lemma is_dir_File (fs : gmap path node) (p : path) (data : content) :
  fs !! p = Some (File data) -> p <> [] -> is_dir fs p = false.
Proof. intros H Hp. unfold is_dir. destruct p; [congruence |]. now rewrite H. Qed.

Lemma is_dir_insert_ne (fs : gmap path node) (p q : path) (nd : node) :
  p <> q -> is_dir (<[p := nd]> fs) q = is_dir fs q.
Proof.
  intros H. unfold is_dir. destruct q; [reflexivity |].
  now rewrite lookup_insert_ne.
Qed.

Lemma is_dir_insert_File (fs : gmap path node) (p q : path) (data : content) :
  is_dir fs p = false -> is_dir (<[p := File data]> fs) q = is_dir fs q.
Proof.
  intros Hp. destruct (decide (p = q)) as [<- | Hne].
  - rewrite Hp. unfold is_dir in *. destruct p; [discriminate Hp |].
    now rewrite lookup_insert_eq.
  - now apply is_dir_insert_ne.
Qed.

Lemma write_file_ok (p : path) (data : content) (fs : gmap path node) :
  is_dir fs p = false -> is_dir fs (parent p) = true ->
  write_file p data fs = inr (<[p := File data]> fs).
Proof. intros H1 H2. unfold write_file. now rewrite H1, H2. Qed.

(** Writing a file changes the entry of that path only and makes no
    directory. *)
Lemma write_file_frame (p : path) (data : content) (fs fs' : gmap path node) :
  write_file p data fs = inr fs' ->
  fs' = <[p := File data]> fs /\ forall q, is_dir fs' q = is_dir fs q.
Proof.
  unfold write_file. destruct (is_dir fs p) eqn:Hp; [discriminate |].
  destruct (is_dir fs (parent p)).
  - intros [= <-]. split; [reflexivity |].
    intros q. now apply is_dir_insert_File.
  - destruct (fs !! parent p) as [[] |]; discriminate.
Qed.

Lemma write_file_missing_dir (p : path) (data : content) (fs : gmap path node) :
  is_dir fs (parent p) = false -> raises (write_file p data fs) = true.
Proof.
  intros H. unfold write_file. rewrite H.
  destruct (is_dir fs p); [reflexivity |].
  destruct (fs !! parent p) as [[] |]; reflexivity.
Qed.

Lemma save_in_output_dir_absent (script_file : path) (file_name : string)
    (wb : fixture)
    (fs : gmap path node) :
  fs_wf fs ->
  is_dir fs (parent (OUTPUT_DIR script_file)) = true ->
  fs !! OUTPUT_DIR script_file = None ->
  let out := joinpath (OUTPUT_DIR script_file) file_name in
  let fs' := <[out := File (XlsxData wb)]>
               (<[OUTPUT_DIR script_file := Dir]> fs) in
  save_in_output_dir script_file file_name wb fs = inr (fs', out) /\
  fs' !! OUTPUT_DIR script_file = Some Dir /\
  fs' !! out = Some (File (XlsxData wb)).
Proof.
  intros Hwf Hpar Habs out fs'.
  set (d := OUTPUT_DIR script_file) in *.
  assert (Hd : d <> []) by apply joinpath_not_root.
  assert (Hnd : is_dir fs d = false) by now apply is_dir_None.
  assert (Hout : fs !! out = None).
  { destruct (fs !! out) as [nd |] eqn:E; [| reflexivity].
    apply Hwf in E. unfold out in E. rewrite parent_joinpath in E.
    congruence. }
  assert (Hne : d <> out) by (intros E; symmetry in E;
                              exact (joinpath_neq_self _ _ E)).
  split; [| split].
  - unfold save_in_output_dir, mkdir_exist_ok. fold d.
    rewrite Hnd, Habs, Hpar. cbn [bind ret]. fold out.
    rewrite write_file_ok; [reflexivity | |].
    + apply is_dir_None; [apply joinpath_not_root |].
      now rewrite lookup_insert_ne.
    + unfold out. rewrite parent_joinpath.
      apply is_dir_Dir, lookup_insert_eq.
  - unfold fs'. rewrite lookup_insert_ne by congruence.
    apply lookup_insert_eq.
  - unfold fs'. apply lookup_insert_eq.
Qed.

Lemma save_in_output_dir_present (script_file : path) (file_name : string)
    (wb : fixture)
    (fs : gmap path node) :
  is_dir fs (OUTPUT_DIR script_file) = true ->
  let out := joinpath (OUTPUT_DIR script_file) file_name in
  is_dir fs out = false ->
  save_in_output_dir script_file file_name wb fs
  = inr (<[out := File (XlsxData wb)]> fs, out).
Proof.
  intros Hd out Hout. unfold save_in_output_dir, mkdir_exist_ok.
  rewrite Hd. cbn [bind ret]. fold out.
  rewrite write_file_ok; [reflexivity | assumption |].
  unfold out. now rewrite parent_joinpath.
Qed.

(** ** Where the generators write *)

Lemma creates_output_dir_save (file_name : path -> string) (wb : fixture) :
  creates_output_dir
    (fun script_file fs =>
       fs_of (save_in_output_dir script_file (file_name script_file) wb fs)).
Proof.
  intros script_file fs Hwf Hpar Habs.
  destruct (save_in_output_dir_absent script_file (file_name script_file)
              wb fs Hwf Hpar Habs) as (Hrun & Hdir & Hfile).
  eexists _, (file_name script_file), wb. rewrite Hrun.
  split; [reflexivity |]. split; assumption.
Qed.

Lemma large_workbook_builds_bounds (rows cols : Z) :
  rows < 1048576 -> cols <= 18278 -> large_workbook_builds rows cols = true.
Proof.
  intros Hr Hc. unfold large_workbook_builds.
  apply andb_true_iff. split; [| lia].
  apply orb_true_iff. right. lia.
Qed.

Lemma create_large_file_builds (sf : path) (rows cols : Z)
    (fs : gmap path node) :
  large_workbook_builds rows cols = true ->
  create_large_file sf rows cols fs
  = save_in_output_dir sf
      ("large_" ++ str_of_int rows ++ "x" ++ str_of_int cols ++ ".xlsx")
      (LargeFile rows cols) fs.
Proof. intros H. unfold create_large_file. now rewrite H. Qed.

Lemma create_large_file_inv (sf : path) (rows cols : Z)
    (fs : gmap path node) (x : gmap path node * path) :
  create_large_file sf rows cols fs = inr x ->
  save_in_output_dir sf
    ("large_" ++ str_of_int rows ++ "x" ++ str_of_int cols ++ ".xlsx")
    (LargeFile rows cols) fs = inr x.
Proof.
  unfold create_large_file.
  destruct (large_workbook_builds rows cols); [auto | discriminate].
Qed.

(** C6, as amended: the generators of generate_test_xlsx.py write into
    [OUTPUT_DIR], the directory [test] next to the directory of the script,
    and make it first when it is missing; [create_large_file] does so for
    fewer than 1048576 rows and at most 18278 columns, and with more columns
    it raises ValueError before it makes or writes anything. The generators
    of generate_kitchen_sink_v2.py and generate_kitchen_sink_v3.py save to a
    fixed absolute path below /Users/robby/projects/xlview/test, whatever
    the location of the script: they write the workbook there when that
    directory exists, and they make no directory, so that the save raises
    when it is missing. *)
Theorem output_directory_policy :
  creates_output_dir (fun sf fs => fs_of (create_kitchen_sink sf fs)) /\
  creates_output_dir (fun sf fs => fs_of (create_colors_only sf fs)) /\
  (forall rows cols,
     rows < 1048576 -> cols <= 18278 ->
     creates_output_dir
       (fun sf fs => fs_of (create_large_file sf rows cols fs))) /\
  (forall sf rows cols (fs : gmap path node),
     18278 < cols -> create_large_file sf rows cols fs = inl ValueError) /\
  (forall sf file_name wb (fs : gmap path node),
     is_dir fs (OUTPUT_DIR sf) = true ->
     is_dir fs (joinpath (OUTPUT_DIR sf) file_name) = false ->
     save_in_output_dir sf file_name wb fs
     = inr (<[joinpath (OUTPUT_DIR sf) file_name := File (XlsxData wb)]> fs,
            joinpath (OUTPUT_DIR sf) file_name)) /\
  parent kitchen_sink_v2_output_path = robby_test_dir /\
  parent kitchen_sink_v3_output_path = robby_test_dir /\
  (forall fs : gmap path node,
     is_dir fs robby_test_dir = true ->
     (is_dir fs kitchen_sink_v2_output_path = false ->
      create_kitchen_sink_v2 fs
      = inr (<[kitchen_sink_v2_output_path := File (XlsxData KitchenSinkV2)]>
               fs)) /\
     (is_dir fs kitchen_sink_v3_output_path = false ->
      create_kitchen_sink_v3 fs
      = inr (<[kitchen_sink_v3_output_path := File (XlsxData KitchenSinkV3)]>
               fs))) /\
  (forall fs : gmap path node,
     is_dir fs robby_test_dir = false ->
     raises (create_kitchen_sink_v2 fs) = true /\
     raises (create_kitchen_sink_v3 fs) = true) /\
  (forall fs fs' : gmap path node,
     create_kitchen_sink_v2 fs = inr fs' \/
     create_kitchen_sink_v3 fs = inr fs' ->
     forall q, is_dir fs' q = is_dir fs q).
Proof.
  split; [exact (creates_output_dir_save (fun _ => _) KitchenSink) |].
  split; [exact (creates_output_dir_save (fun _ => _) ColorsOnly) |].
  split.
  { intros rows cols Hr Hc sf fs Hwf Hpar Habs.
    rewrite create_large_file_builds
      by now apply large_workbook_builds_bounds.
    now apply (creates_output_dir_save (fun _ => _) (LargeFile rows cols)). }
  split.
  { intros sf rows cols fs Hc. unfold create_large_file.
    replace (large_workbook_builds rows cols) with false; [reflexivity |].
    symmetry. unfold large_workbook_builds.
    apply andb_false_iff. right. lia. }
  split; [intros sf file_name wb fs; apply save_in_output_dir_present |].
  split; [reflexivity |]. split; [reflexivity |].
  split.
  { intros fs Hd. split; intros Hp; now apply write_file_ok. }
  split.
  - intros fs H. split; apply write_file_missing_dir; exact H.
  - intros fs fs' [H | H]; apply write_file_frame in H; apply H.
Qed.

Lemma fresh_checkout_wf : fs_wf fresh_checkout.
Proof.
  intros p nd H. unfold fresh_checkout in H.
  repeat (apply lookup_insert_Some in H as [[<- <-] | [_ H]];
          [vm_compute; reflexivity |]).
  rewrite lookup_empty in H. discriminate H.
Qed.

(** The instance of the policy at a fresh checkout: generate_test_xlsx.py
    makes the [test] directory and writes into it; the save of
    generate_kitchen_sink_v2.py raises. *)
Lemma output_directory_policy_witness :
  (exists fs' file_name wb,
     fs_of (create_kitchen_sink robby_script fresh_checkout) = inr fs' /\
     fs' !! OUTPUT_DIR robby_script = Some Dir /\
     fs' !! joinpath (OUTPUT_DIR robby_script) file_name
       = Some (File (XlsxData wb))) /\
  create_large_file robby_script 5000 18279 fresh_checkout = inl ValueError /\
  raises (create_kitchen_sink_v2 fresh_checkout) = true.
Proof.
  split; [| split].
  - apply (proj1 output_directory_policy robby_script fresh_checkout).
    + exact fresh_checkout_wf.
    + vm_compute. reflexivity.
    + vm_compute. reflexivity.
  - apply (proj1 (proj2 (proj2 (proj2 output_directory_policy)))). lia.
  - apply (proj1 (proj2 (proj2 (proj2 (proj2 (proj2 (proj2 (proj2 (proj2
             output_directory_policy))))))))).
    vm_compute. reflexivity.
Defined.

(** C6 as stated fails for generate_kitchen_sink_v2.py: run from
    /Users/robby/projects/xlview/scripts on a checkout without a [test]
    directory, it makes no directory and its save raises. *)
Lemma kitchen_sink_v2_makes_no_directory :
  ~ creates_output_dir (fun _ fs => create_kitchen_sink_v2 fs).
Proof.
  intros H.
  destruct (H robby_script fresh_checkout fresh_checkout_wf)
    as (fs' & file_name & wb & Hrun & _).
  - vm_compute. reflexivity.
  - vm_compute. reflexivity.
  - vm_compute in Hrun. discriminate Hrun.
Qed.

(** ** The manifest *)

Lemma mapM_ext_in {A B} (f g : A -> result B) (l : list A) :
  (forall x, In x l -> f x = g x) -> mapM f l = mapM g l.
Proof.
  induction l as [| x l IH]; intros H; cbn; [reflexivity |].
  rewrite (H x (or_introl eq_refl)), IH; [reflexivity |].
  intros; apply H; now right.
Qed.

Lemma mapM_Forall2 {A B} (f : A -> result B) (R : A -> B -> Prop)
    (l : list A) :
  (forall x, In x l -> exists y, f x = inr y /\ R x y) ->
  exists ys, mapM f l = inr ys /\ Forall2 R l ys.
Proof.
  induction l as [| x l IH]; intros H; cbn.
  - exists []. split; [reflexivity | constructor].
  - destruct (H x (or_introl eq_refl)) as (y & -> & Hy).
    destruct IH as (ys & -> & Hys); [intros; apply H; now right |].
    exists (y :: ys). split; [reflexivity | now constructor].
Qed.

Section Manifest.

Variable script_file : path.
Variable st_size : node -> Z.

Local Abbreviation OD := (OUTPUT_DIR script_file).
Local Abbreviation MP := (manifest_path script_file).

Lemma manifest_path_not_xlsx (nd : node) :
  ~ (parent (MP, nd).1 = OD /\ is_xlsx (name (MP, nd).1) = true).
Proof.
  cbn [fst]. unfold manifest_path. rewrite name_joinpath.
  intros [_ H]. discriminate H.
Qed.

Lemma manifest_path_not_dir : MP <> OD.
Proof. apply joinpath_neq_self. Qed.

Lemma glob_xlsx_spec (fs : gmap path node) (f : string) :
  is_dir fs OD = true ->
  f ∈ glob_xlsx script_file fs <->
  is_xlsx f = true /\ exists nd, fs !! joinpath OD f = Some nd.
Proof.
  intros Hd. unfold glob_xlsx. rewrite Hd.
  rewrite list_elem_of_fmap. split.
  - intros (q & -> & Hq). apply list_elem_of_fmap in Hq as ([q' nd] & -> & Hq).
    apply elem_of_map_to_list in Hq.
    apply map_lookup_filter_Some in Hq as [Hq [Hpar Hx]]. cbn [fst] in *.
    split; [exact Hx |]. exists nd.
    rewrite <- Hpar, joinpath_parent_name; [exact Hq |].
    intros ->. cbn in Hpar. symmetry in Hpar.
    now apply joinpath_not_root in Hpar.
  - intros (Hx & nd & Hnd). exists (joinpath OD f).
    split; [now rewrite name_joinpath |].
    apply list_elem_of_fmap. exists (joinpath OD f, nd). split; [reflexivity |].
    apply elem_of_map_to_list, map_lookup_filter_Some. split; [exact Hnd |].
    cbn [fst]. now rewrite parent_joinpath, name_joinpath.
Qed.

Lemma glob_xlsx_NoDup (fs : gmap path node) :
  NoDup (glob_xlsx script_file fs).
Proof.
  unfold glob_xlsx. destruct (is_dir fs OD); [| constructor].
  apply NoDup_fmap_2_strong; [| apply NoDup_fst_map_to_list].
  intros q1 q2 H1 H2 Hn.
  apply list_elem_of_fmap in H1 as ([q1' n1] & -> & H1).
  apply list_elem_of_fmap in H2 as ([q2' n2] & -> & H2).
  apply elem_of_map_to_list, map_lookup_filter_Some in H1 as [_ [P1 _]].
  apply elem_of_map_to_list, map_lookup_filter_Some in H2 as [_ [P2 _]].
  cbn [fst] in *.
  assert (N : forall q, parent q = OD -> q <> []).
  { intros q Hq ->. cbn in Hq. symmetry in Hq.
    now apply joinpath_not_root in Hq. }
  rewrite <- (joinpath_parent_name q1'), <- (joinpath_parent_name q2')
    by auto.
  now rewrite P1, P2, Hn.
Qed.

(** The previous manifest is not among the globbed files. *)
Lemma glob_xlsx_insert_manifest (fs : gmap path node) (old : content) :
  glob_xlsx script_file (<[MP := File old]> fs) = glob_xlsx script_file fs.
Proof.
  unfold glob_xlsx.
  rewrite is_dir_insert_ne by apply manifest_path_not_dir.
  rewrite map_filter_insert_not; [reflexivity |].
  intros nd. apply manifest_path_not_xlsx.
Qed.

Lemma manifest_entry_insert_manifest (fs : gmap path node) (old : content)
    (f : string) :
  is_xlsx f = true ->
  manifest_entry script_file st_size (<[MP := File old]> fs) f
  = manifest_entry script_file st_size fs f.
Proof.
  intros Hx. unfold manifest_entry. rewrite lookup_insert_ne; [reflexivity |].
  unfold manifest_path. intros E.
  apply (f_equal name) in E. rewrite !name_joinpath in E. subst f.
  discriminate Hx.
Qed.

Lemma sorted_glob_spec (fs : gmap path node) :
  let names := merge_sort String.le (glob_xlsx script_file fs) in
  StronglySorted String.le names /\ NoDup names /\
  (is_dir fs OD = true ->
   forall f, f ∈ names <->
     is_xlsx f = true /\ exists nd, fs !! joinpath OD f = Some nd).
Proof.
  intros names.
  assert (HP : names ≡ₚ glob_xlsx script_file fs)
    by apply merge_sort_Permutation.
  split; [apply StronglySorted_merge_sort; apply _ |].
  split; [rewrite HP; apply glob_xlsx_NoDup |].
  intros Hd f. rewrite HP. now apply glob_xlsx_spec.
Qed.

Lemma manifest_entries (fs : gmap path node) :
  is_dir fs OD = true ->
  exists items,
    mapM (manifest_entry script_file st_size fs)
         (merge_sort String.le (glob_xlsx script_file fs)) = inr items /\
    Forall2 (is_entry_of script_file st_size fs)
            (merge_sort String.le (glob_xlsx script_file fs)) items.
Proof.
  intros Hd. apply mapM_Forall2. intros f Hf.
  destruct (sorted_glob_spec fs) as (_ & _ & Hspec).
  apply list_elem_of_In, (Hspec Hd) in Hf as (_ & nd & Hnd).
  unfold manifest_entry, is_entry_of. rewrite Hnd. eauto.
Qed.

Lemma update_manifest_run (fs : gmap path node) (items : list json) :
  is_dir fs OD = true -> is_dir fs MP = false ->
  mapM (manifest_entry script_file st_size fs)
       (merge_sort String.le (glob_xlsx script_file fs)) = inr items ->
  update_manifest script_file st_size fs
  = inr (<[MP := File (JsonData (JArray items))]> fs).
Proof.
  intros Hd Hm Hitems. unfold update_manifest. rewrite Hitems. cbn [bind].
  apply write_file_ok; [exact Hm |].
  unfold manifest_path. now rewrite parent_joinpath.
Qed.

(** Whatever the manifest file held before, the run replaces it by the
    array built from the directory listing. *)
Lemma update_manifest_overwrites (fs : gmap path node) (items : list json)
    (old : content) :
  is_dir fs OD = true -> is_dir fs MP = false ->
  mapM (manifest_entry script_file st_size fs)
       (merge_sort String.le (glob_xlsx script_file fs)) = inr items ->
  update_manifest script_file st_size (<[MP := File old]> fs)
  = inr (<[MP := File (JsonData (JArray items))]> fs).
Proof.
  intros Hd Hm Hitems.
  rewrite (update_manifest_run _ items).
  - now rewrite insert_insert_eq.
  - now rewrite is_dir_insert_ne by apply manifest_path_not_dir.
  - apply (is_dir_File _ _ old); [apply lookup_insert_eq |].
    apply joinpath_not_root.
  - rewrite glob_xlsx_insert_manifest, <- Hitems.
    apply mapM_ext_in. intros f Hf.
    apply manifest_entry_insert_manifest.
    destruct (sorted_glob_spec fs) as (_ & _ & Hspec).
    now apply list_elem_of_In, (Hspec Hd) in Hf as (Hx & _).
Qed.

Lemma update_manifest_frame (fs fs' : gmap path node) :
  update_manifest script_file st_size fs = inr fs' ->
  forall q, q <> MP -> fs' !! q = fs !! q.
Proof.
  unfold update_manifest. intros H q Hq.
  destruct (mapM _ _) as [e | items]; [discriminate H |]. cbn [bind] in H.
  apply write_file_frame in H as [-> _]. now rewrite lookup_insert_ne.
Qed.

Lemma entry_names (fs : gmap path node) (names : list string)
    (items : list json) :
  Forall2 (is_entry_of script_file st_size fs) names items ->
  Forall2 (fun j f => entry_name j = Some f) items names.
Proof.
  induction 1 as [| f j names items (nd & _ & ->) _ IH]; constructor; auto.
Qed.

End Manifest.

Example update_manifest_sample :
  match update_manifest robby_script sample_st_size sample_fs with
  | inr fs' => fs' !! manifest_path robby_script
  | inl _ => None
  end
  = Some (File (JsonData (JArray
      [ JObject [("name", JString "colors_test.xlsx");
                 ("size", JString "45.7KB")];
        JObject [("name", JString "large_10x2.xlsx");
                 ("size", JString "1.5MB")] ]))).
Proof. vm_compute. reflexivity. Qed.

(** C7: when the output directory exists, [update_manifest] returns and
    leaves in [manifest.json] a JSON array that it builds from the directory
    listing alone, whatever the file held before: one object with a name and
    a size for each entry matching [*.xlsx], and no other. The size text
    ends in MB above 1,000,000 bytes, in KB above 1,000 and in B
    otherwise. *)
Theorem manifest_rewritten_in_full (script_file : path)
    (st_size : node -> Z) (fs : gmap path node) :
  is_dir fs (OUTPUT_DIR script_file) = true ->
  is_dir fs (manifest_path script_file) = false ->
  exists names items,
    update_manifest script_file st_size fs
    = inr (<[manifest_path script_file := File (JsonData (JArray items))]> fs)
    /\
    (forall old,
       update_manifest script_file st_size
         (<[manifest_path script_file := File old]> fs)
       = inr (<[manifest_path script_file
                := File (JsonData (JArray items))]> fs)) /\
    NoDup names /\
    (forall f, f ∈ names <->
       is_xlsx f = true /\
       exists nd, fs !! joinpath (OUTPUT_DIR script_file) f = Some nd) /\
    Forall2 (is_entry_of script_file st_size fs) names items /\
    (forall size, 1000000 < size ->
       size_str size
       = format_1f (float_of_int size / 1000000)%float ++ "MB") /\
    (forall size, 1000 < size <= 1000000 ->
       size_str size = format_1f (float_of_int size / 1000)%float ++ "KB") /\
    (forall size, size <= 1000 -> size_str size = str_of_int size ++ "B").
Proof.
  intros Hd Hm.
  destruct (manifest_entries script_file st_size fs Hd) as (items & Hrun & Hent).
  destruct (sorted_glob_spec script_file fs) as (_ & Hnd & Hspec).
  exists (merge_sort String.le (glob_xlsx script_file fs)), items.
  split; [now apply update_manifest_run |].
  split; [intros old; now apply update_manifest_overwrites |].
  split; [exact Hnd |]. split; [exact (Hspec Hd) |]. split; [exact Hent |].
  unfold size_str. repeat split; intros size Hs.
  - now rewrite (proj2 (Z.ltb_lt _ _)) by lia.
  - rewrite (proj2 (Z.ltb_ge _ _)) by lia.
    now rewrite (proj2 (Z.ltb_lt _ _)) by lia.
  - now rewrite !(proj2 (Z.ltb_ge _ _)) by lia.
Qed.

Lemma manifest_rewritten_in_full_witness :
  exists items,
    update_manifest robby_script sample_st_size sample_fs
    = inr (<[manifest_path robby_script
             := File (JsonData (JArray items))]> sample_fs).
Proof.
  destruct (manifest_rewritten_in_full robby_script sample_st_size sample_fs)
    as (names & items & Hrun & _).
  - vm_compute. reflexivity.
  - vm_compute. reflexivity.
  - exists items. exact Hrun.
Defined.

(** C8: with the manifest-only flag [main] is [update_manifest] and
    nothing else: no generator runs, and when it returns, every path other
    than that of the manifest holds what it held before, the manifest holds
    a JSON array; it returns whenever the output directory exists. *)
Theorem manifest_only_frame (script_file : path) (st_size : node -> Z)
    (args : Args) (fs : gmap path node) :
  manifest_only args = true ->
  main script_file st_size args fs = update_manifest script_file st_size fs /\
  (forall fs', main script_file st_size args fs = inr fs' ->
     (forall q, q <> manifest_path script_file -> fs' !! q = fs !! q) /\
     exists items,
       fs' !! manifest_path script_file
       = Some (File (JsonData (JArray items)))) /\
  (is_dir fs (OUTPUT_DIR script_file) = true ->
   is_dir fs (manifest_path script_file) = false ->
   exists fs', main script_file st_size args fs = inr fs').
Proof.
  intros Hflag. unfold main. rewrite Hflag.
  split; [reflexivity |]. split.
  - intros fs' H. split; [now apply (update_manifest_frame _ _ _ _ H) |].
    unfold update_manifest in H.
    destruct (mapM _ _) as [e | items]; [discriminate H |]. cbn [bind] in H.
    apply write_file_frame in H as [-> _].
    exists items. apply lookup_insert_eq.
  - intros Hd Hm.
    destruct (manifest_entries script_file st_size fs Hd) as (items & Hrun & _).
    eexists. apply (update_manifest_run _ _ _ items); assumption.
Qed.

Lemma manifest_only_frame_witness :
  main robby_script sample_st_size (mkArgs (Some kitchen) 5000 20 true)
    sample_fs
  = update_manifest robby_script sample_st_size sample_fs.
Proof.
  exact (proj1 (manifest_only_frame robby_script sample_st_size
                  (mkArgs (Some kitchen) 5000 20 true) sample_fs eq_refl)).
Defined.

(** C10: when the output directory exists, the objects of the manifest
    array come in the order of their names, which are pairwise
    distinct. *)
Theorem manifest_sorted_by_name (script_file : path) (st_size : node -> Z)
    (fs : gmap path node) :
  is_dir fs (OUTPUT_DIR script_file) = true ->
  is_dir fs (manifest_path script_file) = false ->
  exists fs' items names,
    update_manifest script_file st_size fs = inr fs' /\
    fs' !! manifest_path script_file = Some (File (JsonData (JArray items)))
    /\ Forall2 (fun j f => entry_name j = Some f) items names
    /\ StronglySorted String.le names /\ NoDup names.
Proof.
  intros Hd Hm.
  destruct (manifest_entries script_file st_size fs Hd) as (items & Hrun & Hent).
  destruct (sorted_glob_spec script_file fs) as (Hsorted & Hnd & _).
  exists (<[manifest_path script_file := File (JsonData (JArray items))]> fs),
    items, (merge_sort String.le (glob_xlsx script_file fs)).
  split; [now apply update_manifest_run |].
  split; [apply lookup_insert_eq |].
  split; [exact (entry_names _ _ _ _ _ Hent) |].
  split; assumption.
Qed.

Lemma manifest_sorted_by_name_witness :
  exists fs' items names,
    update_manifest robby_script sample_st_size sample_fs = inr fs' /\
    fs' !! manifest_path robby_script = Some (File (JsonData (JArray items)))
    /\ Forall2 (fun j f => entry_name j = Some f) items names
    /\ StronglySorted String.le names /\ NoDup names.
Proof.
  apply manifest_sorted_by_name; vm_compute; reflexivity.
Defined.

(** * Further properties of the scripts *)

(** ** The font sweep, run again *)

Lemma mapM_fixed {A} (f : A -> result A) (l ys : list A) :
  Forall2 (fun x y => f x = inr y) l ys ->
  (forall x y, f x = inr y -> f y = inr y) ->
  mapM f ys = inr ys.
Proof.
  intros H Hf. induction H as [| x y l ys Hxy _ IH]; cbn; [reflexivity |].
  now rewrite (Hf x y Hxy), IH.
Qed.

Lemma sweep_cell_fixed (c c' : Xl.Cell) :
  sweep_cell c = inr c' -> sweep_cell c' = inr c'.
Proof.
  unfold sweep_cell. intros H.
  destruct (Xl.value c) as [v |] eqn:Ev.
  2:{ injection H as <-. now rewrite Ev. }
  destruct (has_dark_bg c) as [e | dark] eqn:Ed; [discriminate H |].
  cbn [bind] in H.
  destruct (Xl.font c) as [f |] eqn:Ef.
  2:{ injection H as <-. now rewrite Ev, Ed, Ef. }
  destruct (needs_black (Xl.color f) dark) eqn:Enb.
  - injection H as <-. cbn [Xl.value Xl.font].
    rewrite (has_dark_bg_fill c) by reflexivity. rewrite Ed. cbn [bind].
    reflexivity.
  - injection H as <-. rewrite Ev, Ed. cbn [bind]. now rewrite Ef, Enb.
Qed.

Lemma sweep_sheet_fixed (ws ws' : Xl.Worksheet) :
  sweep_sheet ws = inr ws' -> sweep_sheet ws' = inr ws'.
Proof.
  unfold sweep_sheet. intros H.
  destruct (mapM (mapM sweep_cell) (Xl.iter_rows ws)) as [e | rows] eqn:E;
    [discriminate H |].
  cbn in H. injection H as <-. cbn [Xl.iter_rows Xl.title].
  rewrite (mapM_fixed (mapM sweep_cell) (Xl.iter_rows ws) rows);
    [reflexivity | now apply mapM_inr |].
  intros r r' Hr. apply (mapM_fixed sweep_cell r r');
    [now apply mapM_inr | exact sweep_cell_fixed].
Qed.

(** X1: a second run of the sweep changes nothing: the workbook a sweep
    returns is returned unchanged when swept again. *)
Theorem sweep_idempotent (wb wb' : Xl.Workbook) :
  sweep wb = inr wb' -> sweep wb' = inr wb'.
Proof.
  intros H. unfold sweep in *. apply (mapM_fixed sweep_sheet wb wb');
    [now apply mapM_inr | exact sweep_sheet_fixed].
Qed.

Lemma sweep_idempotent_witness :
  sweep sample_workbook = inr swept_sample_workbook /\
  sweep swept_sample_workbook = inr swept_sample_workbook.
Proof.
  split; [reflexivity |]. apply (sweep_idempotent sample_workbook).
  reflexivity.
Defined.

Lemma sweep_cell_colour_set (c c' : Xl.Cell) (f : Xl.Font) :
  sweep_cell c = inr c' -> Xl.value c' <> None -> Xl.font c' = Some f ->
  Xl.color f <> None.
Proof.
  unfold sweep_cell. intros H Hv Hf.
  destruct (Xl.value c) as [v |] eqn:Ev.
  2:{ injection H as <-. congruence. }
  destruct (has_dark_bg c) as [e | dark]; [discriminate H |].
  cbn [bind] in H.
  destruct (Xl.font c) as [g |] eqn:Eg.
  2:{ injection H as <-. congruence. }
  destruct (needs_black (Xl.color g) dark) eqn:Enb.
  - injection H as <-. cbn [Xl.font] in Hf. injection Hf as <-.
    discriminate.
  - injection H as <-. rewrite Eg in Hf. injection Hf as <-.
    unfold needs_black in Enb.
    destruct (Xl.color g) as [col |]; [discriminate | discriminate Enb].
Qed.

(** X2: after a sweep that returns, no cell with a value has a font whose
    colour attribute is None. Where the contrast test returns, a font
    without a colour is replaced by the black one whatever the test says,
    dark backgrounds included, and a font whose colour has no RGB string, as
    a theme colour, is left as it is. *)
Theorem sweep_leaves_no_unset_colour :
  (forall (wb wb' : Xl.Workbook) (c' : Xl.Cell) (f : Xl.Font),
     sweep wb = inr wb' -> In c' (cells wb') -> Xl.value c' <> None ->
     Xl.font c' = Some f -> Xl.color f <> None) /\
  (forall (c : Xl.Cell) (dark : bool) (v : Xl.Value) (f : Xl.Font),
     has_dark_bg c = inr dark -> Xl.value c = Some v ->
     Xl.font c = Some f ->
     (Xl.color f = None ->
      sweep_cell c
      = inr (Xl.mkCell (Xl.value c) (Xl.fill c) (Some (black_font f)))) /\
     (Xl.color f = Some Xl.NoRgbColor -> sweep_cell c = inr c)).
Proof.
  split.
  - intros wb wb' c' f Hs Hin Hv Hf.
    destruct (sweep_cells_source wb wb' c' Hs Hin) as (c & _ & Hc).
    now apply (sweep_cell_colour_set c c' f).
  - intros c dark v f Hd Hv Hf. unfold sweep_cell.
    rewrite Hv, Hd. cbn [bind]. rewrite Hf.
    split; intros Hcol; rewrite Hcol; [reflexivity |].
    cbn. reflexivity.
Qed.

Lemma sweep_leaves_no_unset_colour_witness :
  sweep_cell bold_on_navy
  = inr (Xl.mkCell (Some (Xl.VStr "x"))
           (Some (Xl.PatternFill (Some (Xl.color_of_string "000080"))))
           (Some (black_font (plain_font None None (Some true) None)))) /\
  sweep_cell theme_text = inr theme_text.
Proof.
  split.
  - apply (proj1 (proj2 sweep_leaves_no_unset_colour bold_on_navy true
                   (Xl.VStr "x") _ eq_refl eq_refl eq_refl)).
    reflexivity.
  - apply (proj2 (proj2 sweep_leaves_no_unset_colour theme_text false
                   (Xl.VStr "x") _ eq_refl eq_refl eq_refl)).
    reflexivity.
Defined.

Lemma In_cells (wb : Xl.Workbook) (ws : Xl.Worksheet) (row : list Xl.Cell)
    (c : Xl.Cell) :
  In ws wb -> In row (Xl.iter_rows ws) -> In c row -> In c (cells wb).
Proof.
  intros Hws Hrow Hc. unfold cells.
  apply in_concat. exists row. split; [| exact Hc].
  apply in_concat. exists (Xl.iter_rows ws). split; [| exact Hrow].
  now apply in_map.
Qed.

Lemma Forall2_In_l {A B} (R : A -> B -> Prop) (l : list A) (l' : list B)
    (x : A) :
  Forall2 R l l' -> In x l -> exists y, R x y.
Proof.
  induction 1 as [| a b l l' Hab _ IH]; cbn; [intros [] |].
  intros [<- | Hin]; eauto.
Qed.

Lemma sweep_only_TypeError (wb : Xl.Workbook) (e : exn) :
  sweep wb = inl e -> e = TypeError.
Proof.
  unfold sweep. apply mapM_only. intros ws e0 _. unfold sweep_sheet.
  destruct (mapM (mapM sweep_cell) (Xl.iter_rows ws)) as [e1 | rows] eqn:E;
    [| discriminate].
  cbn [bind]. intros [= <-]. revert E. apply mapM_only. intros row e2 _.
  apply mapM_only. intros c e3 _. apply sweep_cell_only_TypeError.
Qed.

(** X3: the sweep returns when every cell that has a value has a fill
    colour with an RGB string, a fill colour that reads None, or no fill
    colour; when some cell with a value has a fill colour without an RGB
    string, as a theme colour, the sweep raises TypeError. *)
Theorem sweep_returns_iff_rgb_fills (wb : Xl.Workbook) :
  (forallb sweepable (cells wb) = true -> exists wb', sweep wb = inr wb') /\
  (forallb sweepable (cells wb) = false -> sweep wb = inl TypeError).
Proof.
  split; intros H.
  - rewrite forallb_forall in H.
    unfold sweep. apply mapM_total. intros ws Hws. unfold sweep_sheet.
    destruct (mapM_total (mapM sweep_cell) (Xl.iter_rows ws)) as [rows ->].
    + intros row Hrow. apply mapM_total. intros c Hc.
      apply sweep_cell_returns, H. now apply (In_cells wb ws row).
    + cbn. eauto.
  - destruct (sweep wb) as [e | wb'] eqn:Hs.
    + now rewrite (sweep_only_TypeError wb e Hs).
    + exfalso. apply sweep_cells in Hs.
      assert (Hall : forallb sweepable (cells wb) = true).
      { apply forallb_forall. intros c Hc.
        destruct (Forall2_In_l _ _ _ _ Hs Hc) as [c' Hc'].
        destruct (sweepable c) eqn:E; [reflexivity |].
        rewrite (sweep_cell_raises c E) in Hc'. discriminate Hc'. }
      congruence.
Qed.

Lemma sweep_returns_iff_rgb_fills_witness :
  (exists wb', sweep sample_workbook = inr wb') /\
  sweep [Xl.mkWorksheet "Sheet"
           [[Xl.mkCell (Some (Xl.VStr "x"))
               (Some (Xl.PatternFill (Some Xl.NoRgbColor))) None]]]
  = inl TypeError.
Proof.
  split.
  - apply (proj1 (sweep_returns_iff_rgb_fills sample_workbook)). reflexivity.
  - apply (proj2 (sweep_returns_iff_rgb_fills _)). reflexivity.
Defined.

(** ** Strings *)

Lemma append_cons (c : ascii) (s t : string) :
  (String c s ++ t)%string = String c (s ++ t)%string.
Proof. reflexivity. Qed.

Lemma append_empty_l (t : string) : ("" ++ t)%string = t.
Proof. reflexivity. Qed.

Lemma length_append (s t : string) :
  String.length (s ++ t) = (String.length s + String.length t)%nat.
Proof.
  induction s as [| c s IH]; [reflexivity |].
  rewrite append_cons. cbn [String.length]. now rewrite IH.
Qed.

Lemma substring_whole (s : string) :
  String.substring 0 (String.length s) s = s.
Proof. induction s as [| c s IH]; cbn; [reflexivity | now rewrite IH]. Qed.

Lemma substring_after_prefix (p s : string) :
  String.substring (String.length p) (String.length s) (p ++ s) = s.
Proof.
  induction p as [| c p IH].
  - rewrite append_empty_l. apply substring_whole.
  - rewrite append_cons. cbn [String.length String.substring]. exact IH.
Qed.

(** ** The alpha prefix of a colour string *)

Lemma is_hex6_length (s : string) : is_hex6 s = true -> String.length s = 6%nat.
Proof.
  unfold is_hex6. intros H. apply andb_prop in H as [H _].
  now apply Nat.eqb_eq in H.
Qed.

Lemma normalised_prefix (p s : string) :
  is_hex6 s = true -> normalised (p ++ s) = s.
Proof.
  intros H6. pose proof (is_hex6_length s H6) as Hl.
  unfold normalised, last6. rewrite length_append, Hl.
  replace (6 <=? String.length p + 6)%nat with true
    by (symmetry; apply Nat.leb_le; lia).
  replace (String.length p + 6 - 6)%nat with (String.length p) by lia.
  rewrite <- Hl at 1. apply substring_after_prefix.
Qed.

Lemma rgb_dark_prefix (p s : string) :
  is_hex6 s = true ->
  rgb_dark luminance (Some (p ++ s)%string)
  = inr (luminance_of s <? 128)%float.
Proof.
  intros H6.
  pose proof (normalised_prefix p s H6) as Hn.
  destruct (hex6_channels s H6) as (_ & H0 & H1 & H2 & _).
  assert (Ht : truthy (Some (p ++ s)%string) = true).
  { destruct p; [| reflexivity]. rewrite append_empty_l.
    destruct s; [discriminate H6 | reflexivity]. }
  unfold rgb_dark. rewrite Ht. cbn [andb].
  destruct (py_in (Some (p ++ s)%string) white_bg_cells) eqn:Hin; cbn [negb].
  - cbn [try_except_pass ret]. f_equal. symmetry.
    unfold py_in, white_bg_cells in Hin. cbn [existsb] in Hin.
    unfold opt_string_eqb in Hin.
    repeat (apply orb_prop in Hin as [Hin | Hin]);
      try discriminate Hin;
      apply String.eqb_eq in Hin; rewrite Hin in Hn;
      vm_compute in Hn; subst s; reflexivity.
  - fold (normalised (p ++ s)). rewrite Hn.
    unfold channels_dark. rewrite H0, H1, H2. reflexivity.
Qed.

(** X4: the contrast test looks at the last six characters only: whatever
    is put in front of six base-16 digits (an alpha byte, a hash sign), the
    background is dark exactly when the luminance of the six digits is
    below 128. *)
Theorem has_dark_bg_ignores_prefix (p s : string) :
  is_hex6 s = true ->
  has_dark_bg (filled_cell (p ++ s)) = inr (luminance_of s <? 128)%float.
Proof.
  intros H6.
  unfold has_dark_bg, has_dark_bg_with, filled_cell. cbn [Xl.fill].
  now rewrite (rgb_dark_prefix p s H6).
Qed.

Lemma has_dark_bg_ignores_prefix_witness :
  has_dark_bg (filled_cell "FF4472C4") = inr true /\
  has_dark_bg (filled_cell "#FFFF00") = inr false.
Proof.
  split.
  - exact (has_dark_bg_ignores_prefix "FF" "4472C4" eq_refl).
  - exact (has_dark_bg_ignores_prefix "#" "FFFF00" eq_refl).
Defined.

(** ** The unguarded parse of create_colors_only *)

Lemma contrast_font_raises (s : string) (e : exn) :
  channels_dark luminance s = inl e -> contrast_font s = inl e.
Proof.
  unfold channels_dark, contrast_font.
  destruct (int16 (slice 0 2 s)); cbn [bind]; [now intros [= ->] |].
  destruct (int16 (slice 2 4 s)); cbn [bind]; [now intros [= ->] |].
  destruct (int16 (slice 4 6 s)); cbn [bind]; [now intros [= ->] |].
  unfold ret. discriminate.
Qed.

(** X5: the contrasting-text expression of create_colors_only has no
    handler around its parse: on a colour string of fewer than five
    characters, or with a character among its first six that no base-16
    literal contains, it raises ValueError. *)
Theorem contrast_font_unguarded (s : string) :
  (String.length s < 5)%nat \/
  (exists i ch, (i < 6)%nat /\ String.get i s = Some ch
                /\ never_numeric ch = true) ->
  contrast_font s = inl ValueError.
Proof.
  intros H. apply contrast_font_raises.
  destruct H as [Hlen | (i & ch & Hi & Hget & Hch)].
  - now apply short_string_raises.
  - eapply junk_raises; eassumption.
Qed.

Lemma contrast_font_unguarded_witness :
  contrast_font "FFF" = inl ValueError /\
  contrast_font "ZZZZZZ" = inl ValueError.
Proof.
  split; apply contrast_font_unguarded.
  - left. cbn. lia.
  - right. exists 0%nat, "Z"%char. repeat split. lia.
Defined.

(** ** Greys *)

Lemma below_cases (bound : nat) (P : Z -> bool) :
  forallb (fun k => P (Z.of_nat k)) (seq 0 bound) = true ->
  forall n, 0 <= n < Z.of_nat bound -> P n = true.
Proof.
  intros H n Hn. rewrite forallb_forall in H.
  rewrite <- (Z2Nat.id n) by lia. apply H, in_seq. lia.
Qed.

(** X6: writing a byte with [format(n, '02X')] and reading it back with
    [int(_, 16)] gives the byte: the text has exactly two base-16 digits and
    parses to [n]. *)
Theorem format_02X_round_trip (n : Z) :
  0 <= n < 256 ->
  String.length (format_02X n) = 2%nat /\
  all_hex (format_02X n) = true /\
  int16 (format_02X n) = inr n.
Proof.
  intros Hn.
  pose (chk := fun n =>
    (String.length (format_02X n) =? 2)%nat && all_hex (format_02X n)
    && returns_Z (int16 (format_02X n)) n).
  assert (Hall : forallb (fun k => chk (Z.of_nat k)) (seq 0 256) = true)
    by (vm_compute; reflexivity).
  pose proof (below_cases 256 chk Hall n Hn) as H. unfold chk in H.
  apply andb_prop in H as [H H3]. apply andb_prop in H as [H1 H2].
  split; [now apply Nat.eqb_eq |]. split; [exact H2 |].
  unfold returns_Z in H3.
  destruct (int16 (format_02X n)) as [e | w]; [discriminate H3 |].
  apply Z.eqb_eq in H3. now subst.
Qed.

Lemma format_02X_round_trip_witness :
  String.length (format_02X 28) = 2%nat /\
  all_hex (format_02X 28) = true /\
  int16 (format_02X 28) = inr 28.
Proof. apply format_02X_round_trip. lia. Defined.

Lemma grey_hex6 (n : Z) :
  0 <= n < 256 ->
  is_hex6 (thrice (format_02X n)) = true /\
  (luminance_of (thrice (format_02X n)) <? 128)%float = (n <=? 128).
Proof.
  intros Hn.
  pose (chk := fun n =>
    is_hex6 (thrice (format_02X n))
    && Bool.eqb (luminance_of (thrice (format_02X n)) <? 128)%float
                (n <=? 128)).
  assert (Hall : forallb (fun k => chk (Z.of_nat k)) (seq 0 256) = true)
    by (vm_compute; reflexivity).
  pose proof (below_cases 256 chk Hall n Hn) as H. unfold chk in H.
  apply andb_prop in H as [H1 H2]. split; [exact H1 |].
  now apply Bool.eqb_prop.
Qed.

(** X7: a grey whose three channels all are the byte [n] is classified
    dark exactly when [n <= 128]: the level 128 itself, of luminance 128 in
    exact arithmetic, falls below the threshold in binary64. *)
Theorem grey_dark_iff (n : Z) (p : string) :
  0 <= n < 256 ->
  has_dark_bg (filled_cell (p ++ thrice (format_02X n))) = inr (n <=? 128).
Proof.
  intros Hn. destruct (grey_hex6 n Hn) as [H6 Hlum].
  unfold has_dark_bg, has_dark_bg_with, filled_cell. cbn [Xl.fill].
  now rewrite (rgb_dark_prefix p _ H6), Hlum.
Qed.

Lemma grey_dark_iff_witness :
  has_dark_bg (filled_cell "00808080") = inr true /\
  has_dark_bg (filled_cell "00818181") = inr false.
Proof.
  split.
  - apply (grey_dark_iff 128 "00"). lia.
  - apply (grey_dark_iff 129 "00"). lia.
Defined.

(** X8: in the greyscale row of create_colors_only every index from 0 to 9
    gives a fill colour of six base-16 digits, the cell value is that colour
    after a hash sign, and the white font is assigned exactly to the cells
    whose fill the contrast test of the sweep classifies as dark. *)
Theorem grayscale_white_on_dark (i : Z) :
  0 <= i < 10 ->
  exists gray,
    grayscale_cell i
    = Some (gray, "#" ++ gray, if i <? 5 then Some "FFFFFF" else None) /\
    is_hex6 gray = true /\
    forall p, has_dark_bg (filled_cell (p ++ gray)) = inr (i <? 5).
Proof.
  intros Hi.
  pose (chk := fun i =>
    match gray_level i with
    | Some level =>
        (0 <=? level) && (level <? 256) && Bool.eqb (level <=? 128) (i <? 5)
    | None => false
    end).
  assert (Hall : forallb (fun k => chk (Z.of_nat k)) (seq 0 10) = true)
    by (vm_compute; reflexivity).
  pose proof (below_cases 10 chk Hall i Hi) as H. unfold chk in H.
  unfold grayscale_cell.
  destruct (gray_level i) as [level |]; [| discriminate H].
  apply andb_prop in H as [H H3]. apply andb_prop in H as [H1 H2].
  apply Bool.eqb_prop in H3.
  assert (Hl : 0 <= level < 256) by lia.
  exists (thrice (format_02X level)). split; [reflexivity |].
  destruct (grey_hex6 level Hl) as [H6 Hlum].
  split; [exact H6 |].
  intros p. rewrite <- H3, <- Hlum.
  unfold has_dark_bg, has_dark_bg_with, filled_cell. cbn [Xl.fill].
  now rewrite (rgb_dark_prefix p _ H6).
Qed.

Lemma grayscale_white_on_dark_witness :
  exists gray,
    grayscale_cell 4 = Some (gray, "#" ++ gray, Some "FFFFFF") /\
    is_hex6 gray = true /\
    forall p, has_dark_bg (filled_cell (p ++ gray)) = inr true.
Proof. apply (grayscale_white_on_dark 4). lia. Defined.

(** ** Saving again *)

Lemma write_file_inv (p : path) (data : content) (fs fs' : gmap path node) :
  write_file p data fs = inr fs' ->
  is_dir fs p = false /\ is_dir fs (parent p) = true /\
  fs' = <[p := File data]> fs.
Proof.
  unfold write_file. destruct (is_dir fs p); [discriminate |].
  destruct (is_dir fs (parent p)).
  - now intros [= <-].
  - destruct (fs !! parent p) as [[] |]; discriminate.
Qed.

Lemma mkdir_exist_ok_inv (p : path) (fs fs' : gmap path node) :
  mkdir_exist_ok p fs = inr fs' ->
  is_dir fs' p = true /\
  (fs' = fs \/ (fs !! p = None /\ fs' = <[p := Dir]> fs)).
Proof.
  unfold mkdir_exist_ok. destruct (is_dir fs p) eqn:Hp.
  - intros [= <-]. auto.
  - destruct (fs !! p) eqn:E; [discriminate |].
    destruct (is_dir fs (parent p)).
    + intros [= <-]. split; [apply is_dir_Dir, lookup_insert_eq | auto].
    + destruct (fs !! parent p) as [[] |]; discriminate.
Qed.

Lemma save_in_output_dir_inv (script_file : path) (file_name : string)
    (wb : fixture) (fs fs1 : gmap path node) (out : path) :
  save_in_output_dir script_file file_name wb fs = inr (fs1, out) ->
  out = joinpath (OUTPUT_DIR script_file) file_name /\
  is_dir fs1 (OUTPUT_DIR script_file) = true /\
  fs1 !! out = Some (File (XlsxData wb)) /\
  forall q, q <> OUTPUT_DIR script_file -> q <> out -> fs1 !! q = fs !! q.
Proof.
  unfold save_in_output_dir. intros H.
  destruct (mkdir_exist_ok (OUTPUT_DIR script_file) fs) as [e | fs0] eqn:Em;
    [discriminate H |].
  cbn [bind] in H.
  destruct (write_file _ _ fs0) as [e | fs2] eqn:Ew; [discriminate H |].
  cbn [bind ret] in H. injection H as <- <-.
  apply mkdir_exist_ok_inv in Em as [Hd Hfs0].
  apply write_file_inv in Ew as (Hout & _ & ->).
  split; [reflexivity |].
  split; [now rewrite is_dir_insert_File |].
  split; [apply lookup_insert_eq |].
  intros q Hq1 Hq2. rewrite lookup_insert_ne by congruence.
  destruct Hfs0 as [-> | [_ ->]]; [reflexivity |].
  now rewrite lookup_insert_ne by congruence.
Qed.

(** X9: generating a fixture again overwrites it in place: the first run
    of a generator of generate_test_xlsx.py changes nothing but the output
    directory and the file it writes; a second run on the file system the
    first one left returns too, returns the same path, leaves a workbook
    file at that path and changes no other entry. *)
Theorem regenerate_in_place (script_file : path) (rows cols : Z)
    (gen : gmap path node -> result (gmap path node * path))
    (fs fs1 : gmap path node) (out : path) :
  In gen [create_kitchen_sink script_file; create_colors_only script_file;
          create_large_file script_file rows cols] ->
  gen fs = inr (fs1, out) ->
  parent out = OUTPUT_DIR script_file /\
  (exists wb, fs1 !! out = Some (File (XlsxData wb))) /\
  (forall q, q <> OUTPUT_DIR script_file -> q <> out ->
     fs1 !! q = fs !! q) /\
  exists fs2, gen fs1 = inr (fs2, out) /\
    (exists wb, fs2 !! out = Some (File (XlsxData wb))) /\
    forall q, q <> out -> fs2 !! q = fs1 !! q.
Proof.
  intros Hgen Hrun.
  assert (Hsave : exists file_name wb,
             gen = save_in_output_dir script_file file_name wb).
  { cbn [In] in Hgen.
    destruct Hgen as [<- | [<- | [<- | []]]];
      [eexists _, _; reflexivity .. |].
    unfold create_large_file in *.
    destruct (large_workbook_builds rows cols);
      [eexists _, _; reflexivity | discriminate Hrun]. }
  destruct Hsave as (file_name & wb & ->).
  destruct (save_in_output_dir_inv _ _ _ _ _ _ Hrun) as (-> & Hd & Hf & Hfr).
  split; [apply parent_joinpath |]. split; [eauto |]. split; [exact Hfr |].
  eexists. split; [| split].
  - apply save_in_output_dir_present; [exact Hd |].
    eapply is_dir_File; [exact Hf | apply joinpath_not_root].
  - exists wb. apply lookup_insert_eq.
  - intros q Hq. now apply lookup_insert_ne.
Qed.

Lemma regenerate_in_place_witness :
  parent (joinpath (OUTPUT_DIR robby_script) "colors_test.xlsx")
  = OUTPUT_DIR robby_script /\
  exists fs2,
    create_colors_only robby_script
      (<[joinpath (OUTPUT_DIR robby_script) "colors_test.xlsx"
         := File (XlsxData ColorsOnly)]>
         (<[OUTPUT_DIR robby_script := Dir]> fresh_checkout))
    = inr (fs2, joinpath (OUTPUT_DIR robby_script) "colors_test.xlsx").
Proof.
  destruct (regenerate_in_place robby_script 5000 20
              (create_colors_only robby_script) fresh_checkout
              (<[joinpath (OUTPUT_DIR robby_script) "colors_test.xlsx"
                 := File (XlsxData ColorsOnly)]>
                 (<[OUTPUT_DIR robby_script := Dir]> fresh_checkout))
              (joinpath (OUTPUT_DIR robby_script) "colors_test.xlsx"))
    as (Hp & _ & _ & fs2 & Hrun & _).
  - right. left. reflexivity.
  - apply save_in_output_dir_absent.
    + exact fresh_checkout_wf.
    + vm_compute. reflexivity.
    + vm_compute. reflexivity.
  - split; [exact Hp |]. exists fs2. exact Hrun.
Defined.

(** ** The manifest, run again and run too early *)

Lemma update_manifest_fixed (script_file : path)
    (st_size : node -> Z) (fs fs1 : gmap path node) :
  update_manifest script_file st_size fs = inr fs1 ->
  update_manifest script_file st_size fs1 = inr fs1.
Proof.
  intros H. unfold update_manifest in H.
  destruct (mapM (manifest_entry script_file st_size fs) _)
    as [e | items] eqn:E; [discriminate H |].
  cbn [bind] in H. apply write_file_inv in H as (Hm & Hd & ->).
  unfold manifest_path in Hd at 1. rewrite parent_joinpath in Hd.
  now apply update_manifest_overwrites.
Qed.

(** X10: updating the manifest twice is updating it once: on the file
    system that [update_manifest] returns, a second run returns that same
    file system; so a manifest-only run of [main] after any run of [main]
    that returned changes nothing. *)
Theorem update_manifest_idempotent (script_file : path)
    (st_size : node -> Z) :
  (forall fs fs1 : gmap path node,
     update_manifest script_file st_size fs = inr fs1 ->
     update_manifest script_file st_size fs1 = inr fs1) /\
  (forall (args args' : Args) (fs fs' : gmap path node),
     main script_file st_size args fs = inr fs' ->
     manifest_only args' = true ->
     main script_file st_size args' fs' = inr fs').
Proof.
  split; [exact (update_manifest_fixed script_file st_size) |].
  intros args args' fs fs' Hrun Hflag.
  assert (Hlast : exists fs1,
             update_manifest script_file st_size fs1 = inr fs').
  { unfold main in Hrun. destruct (manifest_only args); [eauto |].
    destruct (match only args with
              | Some kitchen => _ | Some large => _ | Some colors => _
              | None => _ end) as [e | fs1]; [discriminate Hrun | eauto]. }
  destruct Hlast as [fs1 Hlast].
  unfold main. rewrite Hflag. now apply (update_manifest_fixed _ _ fs1).
Qed.

Lemma update_manifest_idempotent_witness :
  exists items,
    update_manifest robby_script sample_st_size
      (<[manifest_path robby_script := File (JsonData (JArray items))]>
         sample_fs)
    = inr (<[manifest_path robby_script := File (JsonData (JArray items))]>
             sample_fs).
Proof.
  destruct (manifest_entries robby_script sample_st_size sample_fs)
    as (items & Hrun & _); [vm_compute; reflexivity |].
  exists items.
  apply (proj1 (update_manifest_idempotent robby_script sample_st_size)
           sample_fs).
  apply update_manifest_run; [vm_compute; reflexivity .. | exact Hrun].
Defined.

(** X11: [update_manifest] makes no directory. On a file system without
    the output directory it raises FileNotFoundError, and so does [main]
    with the manifest-only flag: no empty manifest is written. *)
Theorem manifest_needs_output_dir (script_file : path)
    (st_size : node -> Z) (args : Args) (fs : gmap path node) :
  fs_wf fs ->
  fs !! OUTPUT_DIR script_file = None ->
  update_manifest script_file st_size fs = inl FileNotFoundError /\
  (manifest_only args = true ->
   main script_file st_size args fs = inl FileNotFoundError).
Proof.
  intros Hwf Habs.
  assert (Hd : is_dir fs (OUTPUT_DIR script_file) = false)
    by (apply is_dir_None; [apply joinpath_not_root | exact Habs]).
  assert (Hm : is_dir fs (manifest_path script_file) = false).
  { apply is_dir_None; [apply joinpath_not_root |].
    destruct (fs !! manifest_path script_file) as [nd |] eqn:E;
      [| reflexivity].
    apply Hwf in E. unfold manifest_path in E.
    rewrite parent_joinpath in E. congruence. }
  assert (Hu : update_manifest script_file st_size fs = inl FileNotFoundError).
  { unfold update_manifest, glob_xlsx. rewrite Hd.
    change (merge_sort String.le []) with (@nil string).
    cbn [mapM bind ret]. unfold write_file. rewrite Hm.
    unfold manifest_path. rewrite parent_joinpath, Hd, Habs. reflexivity. }
  split; [exact Hu |]. intros Hflag. unfold main. now rewrite Hflag.
Qed.

Lemma manifest_needs_output_dir_witness :
  update_manifest robby_script sample_st_size fresh_checkout
  = inl FileNotFoundError.
Proof.
  refine (proj1 (manifest_needs_output_dir robby_script sample_st_size
                   (mkArgs None 5000 20 true) fresh_checkout
                   fresh_checkout_wf _)).
  vm_compute. reflexivity.
Defined.

(** ** A full run of [main] *)

Lemma append_assoc (s t u : string) :
  ((s ++ t) ++ u)%string = (s ++ (t ++ u))%string.
Proof.
  induction s as [| c s IH]; [reflexivity |].
  now rewrite !append_cons, IH.
Qed.

Lemma is_xlsx_suffix (s : string) : is_xlsx (s ++ ".xlsx") = true.
Proof.
  unfold is_xlsx. rewrite length_append. cbn [String.length].
  replace (5 <=? String.length s + 5)%nat with true
    by (symmetry; apply Nat.leb_le; lia).
  replace (String.length s + 5 - 5)%nat with (String.length s) by lia.
  change 5%nat with (String.length ".xlsx") at 1.
  now rewrite substring_after_prefix.
Qed.

Lemma large_file_name_xlsx (rows cols : Z) :
  is_xlsx (large_file_name rows cols) = true.
Proof.
  unfold large_file_name.
  rewrite <- !append_assoc. apply is_xlsx_suffix.
Qed.

Lemma generated_files_xlsx (args : Args) (f : string) (wb : fixture) :
  In (f, wb) (generated_files args) -> is_xlsx f = true.
Proof.
  unfold generated_files.
  destruct (only args) as [[] |]; cbn [In]; intros H;
    repeat (destruct H as [[= <- <-] | H]);
    try (now destruct H); first [reflexivity | apply large_file_name_xlsx].
Qed.

Lemma generated_files_NoDup (args : Args) :
  List.NoDup (List.map fst (generated_files args)).
Proof.
  unfold generated_files.
  destruct (only args) as [[] |]; cbn [List.map fst];
    repeat constructor; cbn [In]; unfold large_file_name;
    intros H; repeat (destruct H as [H | H]); try discriminate H; exact H.
Qed.

Lemma generated_files_nonempty (args : Args) : generated_files args <> [].
Proof. unfold generated_files. destruct (only args) as [[] |]; discriminate. Qed.

Lemma main_dispatch (script_file : path) (st_size : node -> Z)
    (args : Args) (fs : gmap path node) :
  manifest_only args = false ->
  (only args = None \/ only args = Some large ->
   rows args < 1048576 /\ cols args <= 18278) ->
  main script_file st_size args fs
  = let* fs1 := save_all script_file (generated_files args) fs in
    update_manifest script_file st_size fs1.
Proof.
  intros H Hb. unfold main, generated_files. rewrite H.
  destruct (only args) as [[] |]; try reflexivity.
  - destruct Hb as [Hr Hc]; [now right |]. unfold create_large_file.
    now rewrite (large_workbook_builds_bounds _ _ Hr Hc).
  - destruct Hb as [Hr Hc]; [now left |]. unfold create_large_file.
    now rewrite (large_workbook_builds_bounds _ _ Hr Hc).
Qed.

Lemma joinpath_inj (d : path) (a b : string) :
  joinpath d a = joinpath d b -> a = b.
Proof.
  intros H. apply (f_equal name) in H. now rewrite !name_joinpath in H.
Qed.

Lemma is_dir_lookup (fs fs' : gmap path node) (q : path) :
  fs' !! q = fs !! q -> is_dir fs' q = is_dir fs q.
Proof. intros H. unfold is_dir. destruct q; [reflexivity | now rewrite H]. Qed.

Section PutAll.

Variable script_file : path.

Local Abbreviation OD := (OUTPUT_DIR script_file).

Lemma put_all_other (files : list (string * fixture)) (m : gmap path node)
    (q : path) :
  (forall f wb, In (f, wb) files -> q <> joinpath OD f) ->
  put_all script_file files m !! q = m !! q.
Proof.
  revert m. induction files as [| [f wb] files IH]; intros m H;
    [reflexivity |].
  unfold put_all in *. cbn [fold_left fst snd]. rewrite IH.
  - apply lookup_insert_ne. intros E. apply (H f wb); [now left | easy].
  - intros f' wb' Hin. apply (H f' wb'). now right.
Qed.

Lemma put_all_in (files : list (string * fixture)) (m : gmap path node)
    (f : string) (wb : fixture) :
  List.NoDup (List.map fst files) -> In (f, wb) files ->
  put_all script_file files m !! joinpath OD f = Some (File (XlsxData wb)).
Proof.
  revert m. induction files as [| [f0 wb0] files IH]; intros m Hnd Hin;
    [destruct Hin |].
  cbn [List.map fst] in Hnd. apply List.NoDup_cons_iff in Hnd as [Hn Hnd].
  destruct Hin as [[= -> ->] | Hin].
  - change (put_all script_file ((f, wb) :: files) m)
      with (put_all script_file files
              (<[joinpath OD f := File (XlsxData wb)]> m)).
    rewrite put_all_other; [apply lookup_insert_eq |].
    intros f' wb' Hin' E. apply joinpath_inj in E. subst f'.
    apply Hn. change f with (fst (f, wb')). now apply List.in_map.
  - change (put_all script_file ((f0, wb0) :: files) m)
      with (put_all script_file files
              (<[joinpath OD f0 := File (XlsxData wb0)]> m)).
    now apply IH.
Qed.

Lemma save_all_present (files : list (string * fixture))
    (fs : gmap path node) :
  is_dir fs OD = true ->
  (forall f wb, In (f, wb) files -> is_dir fs (joinpath OD f) = false) ->
  save_all script_file files fs = inr (put_all script_file files fs).
Proof.
  revert fs. induction files as [| [f wb] files IH]; intros fs Hd Hf;
    [reflexivity |].
  cbn [save_all].
  rewrite save_in_output_dir_present;
    [| exact Hd | apply (Hf f wb); now left].
  cbn [bind fst]. rewrite IH; [reflexivity | |].
  - rewrite is_dir_insert_File; [exact Hd | apply (Hf f wb); now left].
  - intros f' wb' Hin.
    rewrite is_dir_insert_File; [| apply (Hf f wb); now left].
    apply (Hf f' wb'). now right.
Qed.

Lemma save_all_absent (files : list (string * fixture))
    (fs : gmap path node) :
  files <> [] -> fs_wf fs -> is_dir fs (parent OD) = true ->
  fs !! OD = None ->
  save_all script_file files fs
  = inr (put_all script_file files (<[OD := Dir]> fs)) /\
  forall q, parent q = OD -> (<[OD := Dir]> fs) !! q = None.
Proof.
  intros Hne Hwf Hpar Habs.
  assert (Hkids : forall q, parent q = OD -> (<[OD := Dir]> fs) !! q = None).
  { intros q Hq.
    assert (q <> OD) by (intros ->; rewrite <- Hq in Habs at 1;
                         revert Hq; unfold OUTPUT_DIR;
                         rewrite parent_joinpath; intros Hq;
                         symmetry in Hq; now apply joinpath_neq_self in Hq).
    rewrite lookup_insert_ne by congruence.
    destruct (fs !! q) as [nd |] eqn:E; [| reflexivity].
    apply Hwf in E. rewrite Hq in E.
    rewrite (is_dir_None fs OD) in E;
      [discriminate E | apply joinpath_not_root | exact Habs]. }
  split; [| exact Hkids].
  destruct files as [| [f wb] files]; [congruence |].
  cbn [save_all].
  destruct (save_in_output_dir_absent script_file f wb fs Hwf Hpar Habs)
    as (-> & _ & _).
  cbn [bind fst].
  set (fs0 := <[OD := Dir]> fs) in *.
  assert (Hd0 : is_dir fs0 OD = true) by apply is_dir_Dir, lookup_insert_eq.
  assert (Hf0 : forall g, is_dir fs0 (joinpath OD g) = false).
  { intros g. apply is_dir_None; [apply joinpath_not_root |].
    apply Hkids, parent_joinpath. }
  rewrite save_all_present; [reflexivity | |].
  - now rewrite is_dir_insert_File.
  - intros f' wb' _. now rewrite is_dir_insert_File.
Qed.

End PutAll.

Lemma entries_named (script_file : path) (st_size : node -> Z)
    (fs : gmap path node) (names : list string) (items : list json)
    (f : string) :
  Forall2 (is_entry_of script_file st_size fs) names items ->
  (exists j, In j items /\ entry_name j = Some f) <-> In f names.
Proof.
  induction 1 as [| g j names items (nd & _ & ->) _ IH]; cbn [In].
  - split; [intros (j & [] & _) | intros []].
  - split.
    + intros (j & [<- | Hj] & Hn).
      * cbn in Hn. injection Hn as ->. now left.
      * right. apply IH. eauto.
    + intros [-> | Hin].
      * eexists. split; [now left | reflexivity].
      * apply IH in Hin as (j & Hj & Hn). eauto.
Qed.

(** X12: a generating run of [main] on a well-formed file system where the
    output directory is still missing (and its parent exists) returns,
    provided that, when the large file is among the selected generators, it
    is asked for fewer than 1048576 rows and at most 18278 columns. The run
    leaves the output directory, in it each workbook the selected generators
    write, and a manifest whose objects name exactly those workbooks; every
    path outside the output directory holds what it held. *)
Theorem main_generates_and_lists (script_file : path)
    (st_size : node -> Z) (args : Args) (fs : gmap path node) :
  manifest_only args = false ->
  (only args = None \/ only args = Some large ->
   rows args < 1048576 /\ cols args <= 18278) ->
  fs_wf fs ->
  is_dir fs (parent (OUTPUT_DIR script_file)) = true ->
  fs !! OUTPUT_DIR script_file = None ->
  exists fs' items,
    main script_file st_size args fs = inr fs' /\
    fs' !! OUTPUT_DIR script_file = Some Dir /\
    fs' !! manifest_path script_file = Some (File (JsonData (JArray items)))
    /\
    (forall f wb, In (f, wb) (generated_files args) ->
       fs' !! joinpath (OUTPUT_DIR script_file) f
       = Some (File (XlsxData wb))) /\
    (forall f, (exists j, In j items /\ entry_name j = Some f) <->
               exists wb, In (f, wb) (generated_files args)) /\
    (forall q, q <> OUTPUT_DIR script_file ->
       parent q <> OUTPUT_DIR script_file -> fs' !! q = fs !! q).
Proof.
  intros Hflag Hbound Hwf Hpar Habs.
  set (OD := OUTPUT_DIR script_file) in *.
  set (MP := manifest_path script_file).
  set (L := generated_files args).
  set (fs0 := <[OD := Dir]> fs).
  set (fs1 := put_all script_file L fs0).
  destruct (save_all_absent script_file L fs (generated_files_nonempty args)
              Hwf Hpar Habs) as [Hsave Hkids].
  fold OD fs0 fs1 in Hsave, Hkids.
  assert (HMPname : forall f wb, In (f, wb) L -> MP <> joinpath OD f).
  { intros f wb Hin E. apply joinpath_inj in E. subst f.
    apply generated_files_xlsx in Hin. discriminate Hin. }
  assert (HODname : forall f wb, In (f, wb) L -> OD <> joinpath OD f).
  { intros f wb _ E. symmetry in E. now apply joinpath_neq_self in E. }
  assert (H1OD : fs1 !! OD = Some Dir).
  { unfold fs1. rewrite put_all_other by exact HODname.
    apply lookup_insert_eq. }
  assert (H1MP : fs1 !! MP = None).
  { unfold fs1. rewrite put_all_other by exact HMPname.
    apply Hkids, parent_joinpath. }
  assert (Hd : is_dir fs1 OD = true) by now apply is_dir_Dir.
  assert (Hm : is_dir fs1 MP = false)
    by (apply is_dir_None; [apply joinpath_not_root | exact H1MP]).
  destruct (manifest_entries script_file st_size fs1 Hd)
    as (items & Hrun & Hent).
  pose proof (update_manifest_run script_file st_size fs1 items Hd Hm Hrun)
    as Hup.
  destruct (sorted_glob_spec script_file fs1) as (_ & _ & Hspec).
  specialize (Hspec Hd).
  exists (<[MP := File (JsonData (JArray items))]> fs1), items.
  split; [rewrite main_dispatch by assumption; fold L;
          rewrite Hsave; exact Hup |].
  split; [rewrite lookup_insert_ne by apply manifest_path_not_dir;
          exact H1OD |].
  split; [apply lookup_insert_eq |].
  split; [| split].
  - intros f wb Hin. rewrite lookup_insert_ne by (eapply HMPname; eauto).
    apply put_all_in; [apply generated_files_NoDup | exact Hin].
  - intros f. rewrite (entries_named _ _ _ _ _ f Hent).
    rewrite <- list_elem_of_In, Hspec. split.
    + intros (_ & nd & Hnd).
      destruct (List.in_dec string_dec f (List.map fst L)) as [Hin | Hout].
      * apply List.in_map_iff in Hin as ([f' wb] & <- & Hin). eauto.
      * exfalso. unfold fs1 in Hnd. rewrite put_all_other in Hnd.
        -- rewrite Hkids in Hnd by apply parent_joinpath. discriminate Hnd.
        -- intros f' wb' Hin E. apply joinpath_inj in E. subst f'.
           apply Hout. change f with (fst (f, wb')). now apply List.in_map.
    + intros (wb & Hin). split; [now apply (generated_files_xlsx args f wb) |].
      eexists. apply put_all_in; [apply generated_files_NoDup | exact Hin].
  - intros q Hq1 Hq2.
    rewrite lookup_insert_ne
      by (intros <-; apply Hq2; apply parent_joinpath).
    unfold fs1. rewrite put_all_other.
    + unfold fs0. now rewrite lookup_insert_ne by congruence.
    + intros f wb _ ->. apply Hq2, parent_joinpath.
Qed.

Lemma main_generates_and_lists_witness :
  exists fs' items,
    main robby_script sample_st_size (mkArgs None 10 2 false) fresh_checkout
    = inr fs' /\
    fs' !! manifest_path robby_script = Some (File (JsonData (JArray items)))
    /\ exists j, In j items /\ entry_name j = Some "large_10x2.xlsx".
Proof.
  destruct (main_generates_and_lists robby_script sample_st_size
              (mkArgs None 10 2 false) fresh_checkout eq_refl)
    as (fs' & items & Hrun & _ & Hm & _ & Hnames & _).
  - intros _. cbn. lia.
  - exact fresh_checkout_wf.
  - vm_compute. reflexivity.
  - vm_compute. reflexivity.
  - exists fs', items. split; [exact Hrun |]. split; [exact Hm |].
    apply Hnames. exists (LargeFile 10 2). right. right. left. reflexivity.
Defined.

(** ** The names of the large files *)

Lemma string_of_uint_digits (d : Decimal.uint) :
  string_all digit_or_minus (NilEmpty.string_of_uint d) = true.
Proof. induction d; cbn; auto. Qed.

Lemma str_of_int_chars (n : Z) :
  string_all digit_or_minus (str_of_int n) = true.
Proof.
  unfold str_of_int, NilZero.string_of_int, NilZero.string_of_uint.
  destruct (Z.to_int n) as [d | d]; destruct d;
    try reflexivity; apply string_of_uint_digits.
Qed.

Lemma str_of_int_inj (a b : Z) : str_of_int a = str_of_int b -> a = b.
Proof.
  unfold str_of_int. intros H.
  assert (Hi : forall n, NilZero.int_of_string
                           (NilZero.string_of_int (Z.to_int n))
                         = Some (Z.to_int n)).
  { intros n. apply NilZero.isi; destruct n; cbn; try discriminate;
      intros [= E]; now apply DecimalPos.Unsigned.to_uint_nonnil in E. }
  apply (f_equal NilZero.int_of_string) in H. rewrite !Hi in H.
  injection H as H. apply (f_equal Z.of_int) in H.
  now rewrite !DecimalZ.of_to in H.
Qed.

(** Two texts without the separator, each followed by the separator, are
    cut at the same place. *)
Lemma split_at_separator (P : ascii -> bool) (sep : ascii)
    (a a' r r' : string) :
  P sep = false ->
  string_all P a = true -> string_all P a' = true ->
  (a ++ String sep r)%string = (a' ++ String sep r')%string ->
  a = a' /\ r = r'.
Proof.
  intros Hsep. revert a'.
  induction a as [| c a IH]; intros [| c' a'] Ha Ha' H.
  - rewrite !append_empty_l in H. injection H as ->. auto.
  - rewrite append_empty_l, append_cons in H. injection H as <- _.
    cbn in Ha'. rewrite Hsep in Ha'. discriminate Ha'.
  - rewrite append_empty_l, append_cons in H. injection H as -> _.
    cbn in Ha. rewrite Hsep in Ha. discriminate Ha.
  - rewrite !append_cons in H. injection H as -> H.
    cbn in Ha, Ha'. apply andb_prop in Ha as [_ Ha].
    apply andb_prop in Ha' as [_ Ha'].
    destruct (IH a' Ha Ha' H) as [-> ->]. auto.
Qed.

Lemma large_file_name_inj (r c r' c' : Z) :
  large_file_name r c = large_file_name r' c' -> r = r' /\ c = c'.
Proof.
  unfold large_file_name. intros H.
  change ("large_" ++ str_of_int r ++ "x" ++ str_of_int c ++ ".xlsx")%string
    with ("large_" ++ (str_of_int r ++ String "x"
                         (str_of_int c ++ String "." "xlsx")))%string in H.
  change ("large_" ++ str_of_int r' ++ "x" ++ str_of_int c' ++ ".xlsx")%string
    with ("large_" ++ (str_of_int r' ++ String "x"
                         (str_of_int c' ++ String "." "xlsx")))%string in H.
  apply String.app_inj in H.
  apply (split_at_separator digit_or_minus) in H as [Hr H];
    [| reflexivity | apply str_of_int_chars ..].
  apply (split_at_separator digit_or_minus) in H as [Hc _];
    [| reflexivity | apply str_of_int_chars ..].
  split; now apply str_of_int_inj.
Qed.

(** X13: the large files of different sizes have different paths, and none
    of them is the path of the kitchen-sink or of the colours workbook: no
    generator of generate_test_xlsx.py overwrites the output of
    another. *)
Theorem generators_do_not_collide (script_file : path) (r c r' c' : Z)
    (fs fs' fs1 fs1' : gmap path node) (out out' : path) :
  create_large_file script_file r c fs = inr (fs1, out) ->
  create_large_file script_file r' c' fs' = inr (fs1', out') ->
  (out = out' -> r = r' /\ c = c') /\
  (forall fs2 fs3 p,
     create_kitchen_sink script_file fs2 = inr (fs3, p) \/
     create_colors_only script_file fs2 = inr (fs3, p) -> p <> out).
Proof.
  intros H H'.
  apply create_large_file_inv, save_in_output_dir_inv in H as (-> & _).
  apply create_large_file_inv, save_in_output_dir_inv in H' as (-> & _).
  split.
  - intros E. apply joinpath_inj in E. now apply large_file_name_inj.
  - intros fs2 fs3 p [Hp | Hp];
      apply save_in_output_dir_inv in Hp as (-> & _);
      intros E; apply joinpath_inj in E; discriminate E.
Qed.

Lemma generators_do_not_collide_witness : 10 = 10 /\ 2 = 2.
Proof.
  refine (proj1 (generators_do_not_collide robby_script 10 2 10 2
                   fresh_checkout fresh_checkout _ _ _ _ _ _) eq_refl).
  - rewrite create_large_file_builds by reflexivity.
    apply save_in_output_dir_absent;
      [exact fresh_checkout_wf | vm_compute; reflexivity ..].
  - rewrite create_large_file_builds by reflexivity.
    apply save_in_output_dir_absent;
      [exact fresh_checkout_wf | vm_compute; reflexivity ..].
Defined.

(** ** The kitchen-sink scripts and the manifest *)

(** X14: when the scripts lie where the absolute paths of
    generate_kitchen_sink_v2.py and generate_kitchen_sink_v3.py point, so
    that [OUTPUT_DIR] is /Users/robby/projects/xlview/test, the workbook
    such a script saves is picked up by the next manifest update: the update
    returns and its array has an object named after the workbook. *)
Theorem kitchen_sink_v2_v3_listed (script_file : path)
    (st_size : node -> Z) (fs fs1 : gmap path node) (file_name : string) :
  OUTPUT_DIR script_file = robby_test_dir ->
  (create_kitchen_sink_v2 fs = inr fs1 /\ file_name = "kitchen_sink_v2.xlsx")
  \/ (create_kitchen_sink_v3 fs = inr fs1
      /\ file_name = "kitchen_sink_v3.xlsx") ->
  is_dir fs (manifest_path script_file) = false ->
  exists fs2 items,
    update_manifest script_file st_size fs1 = inr fs2 /\
    fs2 !! manifest_path script_file = Some (File (JsonData (JArray items)))
    /\ exists j, In j items /\ entry_name j = Some file_name.
Proof.
  intros Hod Hrun Hm.
  assert (H : exists wb,
             write_file (joinpath (OUTPUT_DIR script_file) file_name)
               (XlsxData wb) fs = inr fs1 /\ is_xlsx file_name = true).
  { rewrite Hod.
    destruct Hrun as [[H ->] | [H ->]]; eexists; split;
      first [exact H | reflexivity]. }
  destruct H as (wb & Hw & Hx).
  apply write_file_inv in Hw as (Hout & Hd & ->).
  rewrite parent_joinpath in Hd.
  set (fs1 := <[joinpath (OUTPUT_DIR script_file) file_name
                := File (XlsxData wb)]> fs).
  assert (Hd1 : is_dir fs1 (OUTPUT_DIR script_file) = true)
    by (unfold fs1; now rewrite is_dir_insert_File).
  assert (Hm1 : is_dir fs1 (manifest_path script_file) = false)
    by (unfold fs1; now rewrite is_dir_insert_File).
  destruct (manifest_entries script_file st_size fs1 Hd1)
    as (items & Hitems & Hent).
  exists (<[manifest_path script_file := File (JsonData (JArray items))]> fs1),
    items.
  split; [now apply update_manifest_run |].
  split; [apply lookup_insert_eq |].
  apply (entries_named _ _ _ _ _ file_name Hent).
  destruct (sorted_glob_spec script_file fs1) as (_ & _ & Hspec).
  apply list_elem_of_In, (Hspec Hd1). split; [exact Hx |].
  eexists. unfold fs1. apply lookup_insert_eq.
Qed.

Lemma kitchen_sink_v2_v3_listed_witness :
  exists fs2 items,
    update_manifest robby_script sample_st_size
      (<[kitchen_sink_v2_output_path := File (XlsxData KitchenSinkV2)]>
         sample_fs) = inr fs2 /\
    fs2 !! manifest_path robby_script = Some (File (JsonData (JArray items)))
    /\ exists j, In j items /\ entry_name j = Some "kitchen_sink_v2.xlsx".
Proof.
  apply (kitchen_sink_v2_v3_listed robby_script sample_st_size sample_fs).
  - reflexivity.
  - left. split; [| reflexivity].
    apply write_file_ok; vm_compute; reflexivity.
  - vm_compute. reflexivity.
Defined.
